(** * BeatPrints: the Spotify client ([src/spotify.py])

    A shallow embedding of the [Spotify] class: token acquisition
    ([authorization_header]), track search ([search_track]) and the
    metadata lookup ([trackinfo]), together with the parts of the Python
    runtime they rely on (subscripting of decoded JSON, [dict.get],
    slicing, [datetime.strptime], [strftime], the [02d] format). *)

From Stdlib Require Import ZArith String Ascii List DecimalString DecimalPos DecimalZ Lia.
From stdpp Require Import base option list gmap strings.

Local Open Scope string_scope.
Local Open Scope list_scope.
Local Open Scope Z_scope.

Set Warnings "-register-all".

(** ** Decoded JSON

    What [Response.json()] hands to the client. JSON numbers decode to
    Python [int] (arbitrary precision) or [float]; the client performs no
    arithmetic on a float whose result it keeps, so a float is carried as
    its mantissa and binary exponent only. *)

Inductive json : Type :=
  | JNull
  | JBool (b : bool)
  | JInt (n : Z)
  | JFloat (mantissa exponent : Z)
  | JStr (s : string)
  | JArr (l : list json)
  | JObj (o : gmap string json).

(** ** Exceptions and the error monad *)

Inductive exn : Set :=
  | KeyError
  | IndexError
  | TypeError
  | ValueError
  | AttributeError
  | RequestException.

Inductive result (A : Type) : Type :=
  | Ok (a : A)
  | Raise (e : exn).

Arguments Ok {A} a.
Arguments Raise {A} e.

Definition bind {A B : Type} (r : result A) (k : A -> result B) : result B :=
  match r with
  | Ok a => k a
  | Raise e => Raise e
  end.

Notation "'let!' x ':=' e 'in' k" := (bind e (fun x => k))
  (at level 10, x name, e at level 100, k at level 200).

Definition is_ok {A : Type} (r : result A) : Prop := exists a, r = Ok a.

(** ** Python primitives on decoded JSON *)

(** [v[k]] for a string key [k]. *)
Definition getitem (v : json) (k : string) : result json :=
  match v with
  | JObj o => match o !! k with Some x => Ok x | None => Raise KeyError end
  | _ => Raise TypeError
  end.

(** [v[0]]. A dict decoded from JSON has string keys only, so the integer
    key is never found. Indexing a [str] gives a one-character [str]. *)
Definition getitem0 (v : json) : result json :=
  match v with
  | JArr (x :: _) => Ok x
  | JArr [] => Raise IndexError
  | JStr (String c _) => Ok (JStr (String c EmptyString))
  | JStr EmptyString => Raise IndexError
  | JObj _ => Raise KeyError
  | _ => Raise TypeError
  end.

(** [v[k1][k2]] *)
Definition getitem2 (v : json) (k1 k2 : string) : result json :=
  let! x := getitem v k1 in
  getitem x k2.

(** [v[k1][0][k2]] *)
Definition getitem_first (v : json) (k1 k2 : string) : result json :=
  let! x := getitem v k1 in
  let! x0 := getitem0 x in
  getitem x0 k2.

(** [v.get(k, default)]: only dicts have the method. *)
Definition dict_get (v : json) (k : string) (default : json) : result json :=
  match v with
  | JObj o => Ok (match o !! k with Some x => x | None => default end)
  | _ => Raise AttributeError
  end.

Definition chars (s : string) : list json :=
  map (fun c => JStr (String c EmptyString)) (list_ascii_of_string s).

(** The values [for ... in v[:10]] iterates over. A list and a [str] can be
    sliced; a dict rejects the slice as a key ([TypeError] before CPython
    3.12) and the other values are not subscriptable. *)
Definition slice10 (v : json) : result (list json) :=
  match v with
  | JArr l => Ok (take 10 l)
  | JStr s => Ok (take 10 (chars s))
  | _ => Raise TypeError
  end.

(** [track[i]] on the row handed to [trackinfo]. *)
Definition list_getitem (l : list json) (i : nat) : result json :=
  match l !! i with
  | Some x => Ok x
  | None => Raise IndexError
  end.

(** ** [str()] inside f-strings

    [str] of a [str] is the string itself. The text Python prints for the
    other values ([repr] of floats, lists and dicts) is not part of this
    repository and is taken as a parameter. *)
Class Builtins := { repr : json -> string }.

Definition py_str `{Builtins} (v : json) : string :=
  match v with
  | JStr s => s
  | _ => repr v
  end.

(** ** Integers as decimal text *)

Definition dec (n : Z) : string := NilZero.string_of_int (Z.to_int n).

Fixpoint zeros (k : nat) : string :=
  match k with
  | O => EmptyString
  | S k' => String "0" (zeros k')
  end.

(** [s.rjust(width, "0")] *)
Definition zfill (width : nat) (s : string) : string :=
  zeros (width - String.length s)%nat +:+ s.

(** The result of [//] and [%] on a decoded number: an [int], or a float
    whose value the client never gets to use. *)
Inductive pynum : Set :=
  | PyInt (n : Z)
  | PyFloat.

(** [v // k] for a positive int constant [k]; [bool] is a subclass of
    [int]. *)
Definition floordiv (v : json) (k : Z) : result pynum :=
  match v with
  | JInt n => Ok (PyInt (n / k))
  | JBool b => Ok (PyInt ((if b then 1 else 0) / k))
  | JFloat _ _ => Ok PyFloat
  | _ => Raise TypeError
  end.

(** [x % k] for a positive int constant [k]. *)
Definition pymod (x : pynum) (k : Z) : pynum :=
  match x with
  | PyInt n => PyInt (n mod k)
  | PyFloat => PyFloat
  end.

(** [format(n, "02d")] on an int: the [0] flag pads with zeros after the
    sign, up to a total width of two. *)
Definition format_02d_int (n : Z) : string :=
  let sign := if n <? 0 then "-" else EmptyString in
  sign +:+ zfill (2 - String.length sign)%nat (dec (Z.abs n)).

(** [f"{x:02d}"]: the [d] presentation type is refused for a float. *)
Definition format_02d (x : pynum) : result string :=
  match x with
  | PyInt n => Ok (format_02d_int n)
  | PyFloat => Raise ValueError
  end.

(** ** Characters and decimal digits

    A Python [str] is a sequence of code points; a text here is the
    UTF-8 encoding of one. The pattern [\d] and [int] accept every code
    point that the interpreter's Unicode database gives the category Nd
    (the full-width digits, the Arabic-Indic ones, ...), with its digit
    value. Which code points outside ASCII those are depends on the
    Unicode version the interpreter was built with, so the database is
    taken as a parameter. *)
Class Unicode := { decimal : N -> option Z }.

(** The payload of a continuation byte [10xxxxxx]. *)
Definition continuation (c : ascii) : option N :=
  let b := N_of_ascii c in
  if ((128 <=? b) && (b <? 192))%N then Some (b - 128)%N else None.

(** The first character of a text: its code point, its bytes and the
    text that follows. Bytes that encode no character give [None]. *)
Definition decode (s : string) : option (N * string * string) :=
  match s with
  | EmptyString => None
  | String c0 s0 =>
      let b0 := N_of_ascii c0 in
      if (b0 <? 128)%N then Some (b0, String c0 EmptyString, s0)
      else
        match s0 with
        | EmptyString => None
        | String c1 s1 =>
            match continuation c1 with
            | None => None
            | Some x1 =>
                if ((192 <=? b0) && (b0 <? 224))%N then
                  Some (((b0 - 192) * 64 + x1)%N, String c0 (String c1 EmptyString), s1)
                else
                  match s1 with
                  | EmptyString => None
                  | String c2 s2 =>
                      match continuation c2 with
                      | None => None
                      | Some x2 =>
                          if ((224 <=? b0) && (b0 <? 240))%N then
                            Some ((((b0 - 224) * 64 + x1) * 64 + x2)%N,
                                  String c0 (String c1 (String c2 EmptyString)), s2)
                          else
                            match s2 with
                            | EmptyString => None
                            | String c3 s3 =>
                                match continuation c3 with
                                | None => None
                                | Some x3 =>
                                    if ((240 <=? b0) && (b0 <? 248))%N then
                                      Some (((((b0 - 240) * 64 + x1) * 64 + x2) * 64 + x3)%N,
                                            String c0 (String c1 (String c2
                                              (String c3 EmptyString))), s3)
                                    else None
                                end
                            end
                      end
                  end
            end
        end
  end.

(** The digit value of a code point: [0] to [9] in ASCII, and what the
    database says outside ASCII. *)
Definition decimal_value `{Unicode} (cp : N) : option Z :=
  if (cp <? 128)%N then
    (if ((48 <=? cp) && (cp <=? 57))%N then Some (Z.of_N cp - 48) else None)
  else decimal cp.

(** A decimal digit at the head of a text: its value, its bytes and the
    text that follows. *)
Definition digit_at `{Unicode} (s : string) : option (Z * string * string) :=
  match decode s with
  | Some (cp, text, rest) =>
      match decimal_value cp with
      | Some v => Some (v, text, rest)
      | None => None
      end
  | None => None
  end.

(** ** [datetime.strptime]

    CPython turns the format into a regular expression ([TimeRE.pattern]),
    matches it against the start of the text, refuses text that is left
    over, converts the named groups with [int] and builds the date, which
    validates it. *)

Inductive regex : Type :=
  | REmpty
  | RLit (c : ascii)
  | RDigit
  | RRange (lo hi : ascii)
  | RSeq (r1 r2 : regex)
  | RAlt (r1 r2 : regex)
  | RGroup (name : string) (r : regex).

Definition in_range (lo hi c : ascii) : bool :=
  ((N_of_ascii lo <=? N_of_ascii c) && (N_of_ascii c <=? N_of_ascii hi))%N.

(** An ASCII digit: what the explicit ranges of the patterns accept and
    what printed numbers are made of. *)
Definition is_digit (c : ascii) : bool := in_range "0" "9" c.

(** One outcome of a match: the named groups, the text matched and the
    text that follows it. *)
Definition outcome : Type := gmap string string * string * string.

Definition step (ok : ascii -> bool) (s : string) : list outcome :=
  match s with
  | String c rest => if ok c then [(∅, String c EmptyString, rest)] else []
  | EmptyString => []
  end.

(** [\d]: one decimal digit, of any script. *)
Definition step_digit `{Unicode} (s : string) : list outcome :=
  match digit_at s with
  | Some (_, text, rest) => [(∅, text, rest)]
  | None => []
  end.

(** All the ways [r] matches a prefix of [s], in the order a backtracking
    matcher tries them: the first one is what [re.match] reports. *)
Fixpoint rmatch `{Unicode} (r : regex) (s : string) : list outcome :=
  match r with
  | REmpty => [(∅, EmptyString, s)]
  | RLit c => step (Ascii.eqb c) s
  | RDigit => step_digit s
  | RRange lo hi => step (in_range lo hi) s
  | RSeq r1 r2 =>
      flat_map (fun '(g1, m1, rest1) =>
                  map (fun '(g2, m2, rest2) => (g1 ∪ g2, m1 +:+ m2, rest2))
                      (rmatch r2 rest1))
               (rmatch r1 s)
  | RAlt r1 r2 => rmatch r1 s ++ rmatch r2 s
  | RGroup name r1 =>
      map (fun '(g, m, rest) => (<[name := m]> g, m, rest)) (rmatch r1 s)
  end.

(** The entries of [TimeRE] for the directives the client's formats use:
    [(?P<Y>\d\d\d\d)], [(?P<m>1[0-2]|0[1-9]|[1-9])] and
    [(?P<d>3[0-1]|[1-2]\d|0[1-9]|[1-9]| [1-9])]. *)
Definition Y_group : regex :=
  RGroup "Y" (RSeq RDigit (RSeq RDigit (RSeq RDigit RDigit))).

Definition m_group : regex :=
  RGroup "m" (RAlt (RSeq (RLit "1") (RRange "0" "2"))
             (RAlt (RSeq (RLit "0") (RRange "1" "9"))
                   (RRange "1" "9"))).

Definition d_group : regex :=
  RGroup "d" (RAlt (RSeq (RLit "3") (RRange "0" "1"))
             (RAlt (RSeq (RRange "1" "2") RDigit)
             (RAlt (RSeq (RLit "0") (RRange "1" "9"))
             (RAlt (RRange "1" "9")
                   (RSeq (RLit " ") (RRange "1" "9")))))).

(** Any other character after [%] is reported as a bad directive. *)
Definition directive (c : ascii) : result regex :=
  if Ascii.eqb c "Y" then Ok Y_group
  else if Ascii.eqb c "m" then Ok m_group
  else if Ascii.eqb c "d" then Ok d_group
  else Raise ValueError.

(** [TimeRE.pattern]: directives become their group, every other character
    stands for itself; a [%] at the very end is a stray one. *)
Fixpoint TimeRE_pattern (format : string) : result regex :=
  match format with
  | EmptyString => Ok REmpty
  | String c rest =>
      if Ascii.eqb c "%" then
        match rest with
        | String d rest' =>
            let! r1 := directive d in
            let! r2 := TimeRE_pattern rest' in
            Ok (RSeq r1 r2)
        | EmptyString => Raise ValueError
        end
      else
        let! r2 := TimeRE_pattern rest in
        Ok (RSeq (RLit c) r2)
  end.

Definition digit_value (c : ascii) : Z := Z.of_N (N_of_ascii c) - 48.

(** Reading a number off a text, byte by byte: a byte that starts a
    decimal digit adds that digit, any other byte (a blank, the later
    bytes of a digit) adds nothing. *)
Fixpoint int_digits `{Unicode} (acc : Z) (s : string) : Z :=
  match s with
  | EmptyString => acc
  | String c rest =>
      int_digits (match digit_at s with
                  | Some (v, _, _) => 10 * acc + v
                  | None => acc
                  end) rest
  end.

(** [int(text)] on the text of a group: decimal digits, after a blank in
    the one alternative of [%d] that allows it. *)
Definition py_int `{Unicode} (s : string) : Z := int_digits 0 s.

(** A [datetime]; [strptime] leaves the time of day at midnight and the
    client's output format does not print it. *)
Record datetime : Set := mkdate { year : Z; month : Z; day : Z }.

Definition is_leap (y : Z) : bool :=
  (y mod 4 =? 0) && (negb (y mod 100 =? 0) || (y mod 400 =? 0)).

Definition days_in_month (y m : Z) : Z :=
  if m =? 2 then (if is_leap y then 29 else 28)
  else if (m =? 4) || (m =? 6) || (m =? 9) || (m =? 11) then 30
  else 31.

(** The checks of the [date] constructor: [MINYEAR] is 1, [MAXYEAR] 9999. *)
Definition valid_date (y m d : Z) : bool :=
  (1 <=? y) && (y <=? 9999) && (1 <=? m) && (m <=? 12) &&
  (1 <=? d) && (d <=? days_in_month y m).

Definition group_int `{Unicode} (found : gmap string string) (name : string)
    (default : Z) : Z :=
  match found !! name with
  | Some text => py_int text
  | None => default
  end.

Definition strptime `{Unicode} (data_string : json) (format : string)
    : result datetime :=
  match data_string with
  | JStr s =>
      let! format_regex := TimeRE_pattern format in
      match rmatch format_regex s with
      | [] => Raise ValueError
      | (found, _, rest) :: _ =>
          match rest with
          | EmptyString =>
              let y := group_int found "Y" 1900 in
              let m := group_int found "m" 1 in
              let d := group_int found "d" 1 in
              if valid_date y m d then Ok (mkdate y m d) else Raise ValueError
          | String _ _ => Raise ValueError
          end
      end
  | _ => Raise TypeError
  end.

(** The group names a pattern can bind. *)
Fixpoint group_names (r : regex) : gset string :=
  match r with
  | RGroup name r1 => {[ name ]} ∪ group_names r1
  | RSeq r1 r2 | RAlt r1 r2 => group_names r1 ∪ group_names r2
  | _ => ∅
  end.

(** [hash(v)] succeeds: lists and dicts are the unhashable values. *)
Definition hashable (v : json) : bool :=
  match v with
  | JArr _ | JObj _ => false
  | _ => true
  end.

(** ** [strftime] in the C locale *)

Definition month_names : list string :=
  ["January"; "February"; "March"; "April"; "May"; "June"; "July";
   "August"; "September"; "October"; "November"; "December"].

Definition month_name (m : Z) : string :=
  nth (Z.to_nat (m - 1)) month_names EmptyString.

(** [%B] is the full month name and [%d] the day on two digits. [%Y] is
    the year as the C library prints it: glibc, which CPython calls,
    writes the plain decimal number, so a year below 1000 comes out
    without leading zeros. The other directives are not used by the
    client and are left in place. *)
Definition strftime_directive (dt : datetime) (c : ascii) : string :=
  if Ascii.eqb c "B" then month_name (month dt)
  else if Ascii.eqb c "d" then zfill 2 (dec (day dt))
  else if Ascii.eqb c "Y" then dec (year dt)
  else String "%" (String c EmptyString).

Fixpoint strftime (dt : datetime) (format : string) : string :=
  match format with
  | EmptyString => EmptyString
  | String c rest =>
      if Ascii.eqb c "%" then
        match rest with
        | String d rest' => strftime_directive dt d +:+ strftime dt rest'
        | EmptyString => String c EmptyString
        end
      else String c (strftime dt rest)
  end.

(** ** The HTTP layer

    [requests.post(...).json()] and [requests.get(...).json()]: the decoded
    body the provider answers with for a URL, its parameters and headers,
    or the exception raised instead (no connection, a body that is not
    JSON). *)
Class Requests := {
  post_json : string -> gmap string string -> gmap string string -> result json;
  get_json : string -> gmap string json -> gmap string string -> result json
}.

(** ** The client *)

(** The instance attributes. [AUTH_HEADER] does not exist until
    [authorization_header] has assigned it. *)
Record Spotify : Type := mkSpotify {
  CLIENT_ID : string;
  CLIENT_SECRET : string;
  BASE_URL : string;
  AUTH_HEADER : option (gmap string string)
}.

Definition set_AUTH_HEADER (self : Spotify) (h : gmap string string) : Spotify :=
  mkSpotify (CLIENT_ID self) (CLIENT_SECRET self) (BASE_URL self) (Some h).

(** Reading [self.__AUTH_HEADER]. *)
Definition get_AUTH_HEADER (self : Spotify) : result (gmap string string) :=
  match AUTH_HEADER self with
  | Some h => Ok h
  | None => Raise AttributeError
  end.

Section Client.
Context `{Unicode} `{Builtins} `{Requests}.

(** Lines 34 to 43: [requests.post(endpoint, headers=headers,
    params=payload)], decoded. *)
Definition token_response (self : Spotify) : result json :=
  let endpoint := "https://accounts.spotify.com/api/token" in
  let headers := {[ "Content-Type" := "application/x-www-form-urlencoded" ]} in
  let payload := {[ "grant_type" := "client_credentials";
                    "client_id" := CLIENT_ID self;
                    "client_secret" := CLIENT_SECRET self ]} in
  post_json endpoint headers payload.

(** [Spotify.authorization_header]: the outcome and the instance as the
    call leaves it. *)
Definition authorization_header (self : Spotify) : result unit * Spotify :=
  match (let! data := token_response self in
         getitem data "access_token") with
  | Ok token =>
      (Ok tt, set_AUTH_HEADER self {[ "Authorization" := "Bearer " +:+ py_str token ]})
  | Raise e => (Raise e, self)
  end.

(** [Spotify.__init__]: a failed authentication leaves no instance. *)
Definition init (client_id client_secret : string) : result Spotify :=
  let self := mkSpotify client_id client_secret "https://api.spotify.com/v1" None in
  match authorization_header self with
  | (Ok _, self') => Ok self'
  | (Raise e, _) => Raise e
  end.

(** The body of the loop of [search_track]: the row appended for the
    item at position [i]. *)
Definition track_row (i : Z) (item : json) : result (list json) :=
  let! name := getitem item "name" in
  let! artist := getitem_first item "artists" "name" in
  let! album := getitem2 item "album" "name" in
  let! trackid := getitem item "id" in
  Ok [JInt i; name; artist; album; trackid].

(** [for i, item in enumerate(..., start=i): tracks.append(...)] *)
Fixpoint search_loop (tracks : list (list json)) (i : Z) (items : list json)
    : result (list (list json)) :=
  match items with
  | [] => Ok tracks
  | item :: rest =>
      let! row := track_row i item in
      search_loop (tracks ++ [row]) (i + 1) rest
  end.

(** Lines 61 to 64: the search request, decoded. *)
Definition search_response (self : Spotify) (track_name : string) (limit : json)
    : result json :=
  let query_params := {[ "q" := JStr track_name; "type" := JStr "track";
                         "limit" := limit ]} in
  let! headers := get_AUTH_HEADER self in
  get_json (BASE_URL self +:+ "/search") query_params headers.

(** [Spotify.search_track] *)
Definition search_track (self : Spotify) (track_name : string) (limit : json)
    : result (list (list json)) :=
  let tracks := [] in
  let! track_data := search_response self track_name limit in
  let! found := dict_get track_data "tracks" (JObj ∅) in
  let! items := dict_get found "items" (JArr []) in
  let! first10 := slice10 items in
  search_loop tracks 1 first10.

(** [{"day": "%Y-%m-%d", "month": "%Y-%m", "year": "%Y"}.get(precision, '')]:
    a list or a dict cannot be hashed; any other value that is not one
    of the keys gets the default. *)
Definition date_format_of (precision : json) : result string :=
  match precision with
  | JArr _ | JObj _ => Raise TypeError
  | JStr p =>
      Ok (if String.eqb p "day" then "%Y-%m-%d"
          else if String.eqb p "month" then "%Y-%m"
          else if String.eqb p "year" then "%Y"
          else EmptyString)
  | _ => Ok EmptyString
  end.

(** Lines 94 to 99: the release date as it is printed. *)
Definition format_release_date (date precision : json) : result string :=
  let! date_format := date_format_of precision in
  let! parsed := strptime date date_format in
  Ok (strftime parsed "%B %d, %Y").

(** The [duration] entry: minutes and seconds, each through [02d]. *)
Definition format_duration (t_data : json) : result string :=
  let! ms1 := getitem t_data "duration_ms" in
  let! minutes := floordiv ms1 60000 in
  let! mm := format_02d minutes in
  let! ms2 := getitem t_data "duration_ms" in
  let! seconds := floordiv ms2 1000 in
  let! ss := format_02d (pymod seconds 60) in
  Ok (mm +:+ ":" +:+ ss).

Definition newline : string := String "010" EmptyString.

(** Lines 80 to 82 and 84 to 87: the two lookups by identifier. *)
Definition track_response (self : Spotify) (trackid : json) : result json :=
  let! headers := get_AUTH_HEADER self in
  get_json (BASE_URL self +:+ "/tracks/" +:+ py_str trackid) ∅ headers.

Definition album_response (self : Spotify) (album_id : json) : result json :=
  let! headers := get_AUTH_HEADER self in
  get_json (BASE_URL self +:+ "/albums/" +:+ py_str album_id) ∅ headers.

(** [Spotify.trackinfo] *)
Definition trackinfo (self : Spotify) (track : list json)
    : result (gmap string json) :=
  let! trackid := list_getitem track 4 in
  let! t_data := track_response self trackid in
  let! album_id := getitem2 t_data "album" "id" in
  let! a_data := album_response self album_id in
  let! album_label := getitem a_data "label" in
  let! date := getitem2 t_data "album" "release_date" in
  let! precision := getitem2 t_data "album" "release_date_precision" in
  let! release_date := format_release_date date precision in
  let! info_album_id := getitem2 t_data "album" "id" in
  let! info_name := getitem t_data "name" in
  let! info_artist := getitem_first t_data "artists" "name" in
  let! info_year := getitem2 t_data "album" "release_date" in
  let! info_duration := format_duration t_data in
  let! info_image :=
    (let! album := getitem t_data "album" in getitem_first album "images" "url") in
  let info_label := release_date +:+ newline +:+ py_str album_label in
  let! info_track_id := getitem t_data "id" in
  Ok {[ "album_id" := info_album_id;
        "name" := info_name;
        "artist" := info_artist;
        "year" := info_year;
        "duration" := JStr info_duration;
        "image" := info_image;
        "label" := JStr info_label;
        "track_id" := info_track_id;
        "cover" := JStr "./assets/spotify_banner.jpg" ]}.

(** The record [trackinfo] builds from the values it has read. *)
Definition info_of (album_id name artist date : json) (duration : string)
    (image : json) (release_date : string) (album_label track_id : json)
    : gmap string json :=
  {[ "album_id" := album_id;
     "name" := name;
     "artist" := artist;
     "year" := date;
     "duration" := JStr duration;
     "image" := image;
     "label" := JStr (release_date +:+ newline +:+ py_str album_label);
     "track_id" := track_id;
     "cover" := JStr "./assets/spotify_banner.jpg" ]}.

(** The steps of a run of [trackinfo] that returns. *)
Record trackinfo_steps (self : Spotify) (track : list json)
    (trackid t_data album_id a_data album_label date precision : json)
    (release_date : string) (name artist : json) (duration : string)
    (image track_id : json) : Prop := {
  step_trackid : track !! 4%nat = Some trackid;
  step_t_data : track_response self trackid = Ok t_data;
  step_album_id : getitem2 t_data "album" "id" = Ok album_id;
  step_a_data : album_response self album_id = Ok a_data;
  step_label : getitem a_data "label" = Ok album_label;
  step_date : getitem2 t_data "album" "release_date" = Ok date;
  step_precision : getitem2 t_data "album" "release_date_precision" = Ok precision;
  step_release_date : format_release_date date precision = Ok release_date;
  step_name : getitem t_data "name" = Ok name;
  step_artist : getitem_first t_data "artists" "name" = Ok artist;
  step_duration : format_duration t_data = Ok duration;
  step_image :
    (let! album := getitem t_data "album" in getitem_first album "images" "url")
      = Ok image;
  step_track_id : getitem t_data "id" = Ok track_id
}.
End Client.

(** ** The shapes the specification names

    The specification describes the printed release date by patterns
    ([Month DD, YYYY], [Month YYYY], [YYYY]) and the duration as minutes
    and seconds padded to two digits. These definitions follow its words;
    they are compared with what the client computes. *)

Inductive shape : Set :=
  | SDigit
  | SChar (c : ascii).

Fixpoint has_shape (p : list shape) (s : string) : bool :=
  match p, s with
  | [], EmptyString => true
  | SDigit :: p', String c s' => is_digit c && has_shape p' s'
  | SChar c0 :: p', String c s' => Ascii.eqb c0 c && has_shape p' s'
  | _, _ => false
  end.

Fixpoint strip_prefix (p s : string) : option string :=
  match p, s with
  | EmptyString, _ => Some s
  | String a p', String b s' => if Ascii.eqb a b then strip_prefix p' s' else None
  | String _ _, EmptyString => None
  end.

(** A full English month name, a blank, then text of shape [p]. *)
Definition month_then (p : list shape) (s : string) : bool :=
  existsb (fun name =>
             match strip_prefix (name +:+ " ") s with
             | Some rest => has_shape p rest
             | None => false
             end) month_names.

Definition YYYY : list shape := [SDigit; SDigit; SDigit; SDigit].
Definition DD_YYYY : list shape := [SDigit; SDigit; SChar ","; SChar " "] ++ YYYY.

Definition is_Month_DD_YYYY (s : string) : bool := month_then DD_YYYY s.
Definition is_Month_YYYY (s : string) : bool := month_then YYYY s.
Definition is_YYYY (s : string) : bool := has_shape YYYY s.

(** The pattern the specification promises for each precision. *)
Definition promised_pattern (precision : string) : string -> bool :=
  if String.eqb precision "day" then is_Month_DD_YYYY
  else if String.eqb precision "month" then is_Month_YYYY
  else is_YYYY.

(** A number padded to two digits: zeros in front of its decimal text. *)
Definition two_digits (n : Z) : string := zfill 2 (dec n).

(** A release date as the provider writes it for each precision:
    [YYYY], [YYYY-MM] and [YYYY-MM-DD]. *)
Definition year_text (y : Z) : string := zfill 4 (dec y).
Definition month_text (y m : Z) : string := year_text y +:+ "-" +:+ zfill 2 (dec m).
Definition day_text (y m d : Z) : string := month_text y m +:+ "-" +:+ zfill 2 (dec d).

(** The year is written with four digits that read back as the year. *)
Definition year_digits_ok `{Unicode} (y : Z) : bool :=
  match year_text y with
  | String a (String b (String c (String d EmptyString))) =>
      is_digit a && is_digit b && is_digit c && is_digit d
      && (py_int (year_text y) =? y)
  | _ => false
  end.

(** What follows the year in a pattern, [r], matches all of [rest] at the
    first try and reads month [m] and day [d] from it. *)
Definition after_year `{Unicode} (r : regex) (rest : string) (m d : Z) : bool :=
  match rmatch r rest with
  | (g, _, EmptyString) :: _ => (group_int g "m" 1 =? m) && (group_int g "d" 1 =? d)
  | _ => false
  end.

Definition month_tail : regex := RSeq (RLit "-") (RSeq m_group REmpty).

Definition day_tail : regex :=
  RSeq (RLit "-") (RSeq m_group (RSeq (RLit "-") (RSeq d_group REmpty))).

(** A track item of a search response: it has a name, a first artist with
    a name, an album with a name and an identifier. *)
Definition is_track_item (item : json) : Prop :=
  is_ok (getitem item "name") /\
  is_ok (getitem_first item "artists" "name") /\
  is_ok (getitem2 item "album" "name") /\
  is_ok (getitem item "id").

(** ** A provider to run the client against *)

Definition demo_builtins : Builtins := {| repr := fun _ => "<object>" |}.

(** A database that knows the full-width digits, U+FF10 to U+FF19. *)
Definition demo_unicode : Unicode :=
  {| decimal := fun cp =>
       if ((65296 <=? cp) && (cp <=? 65305))%N then Some (Z.of_N cp - 65296) else None |}.

Definition demo_album (date precision : json) : json :=
  JObj {[ "id" := JStr "4aawyAB9vmqN3uQ7FjRGTy";
          "name" := JStr "Global Warming";
          "release_date" := date;
          "release_date_precision" := precision;
          "images" := JArr [JObj {[ "url" := JStr "https://i.scdn.co/image/ab67616d" ]}] ]}.

Definition demo_track (date precision duration_ms : json) : json :=
  JObj {[ "id" := JStr "11dFghVXANMlKmJXsNCbNl";
          "name" := JStr "Cut To The Feeling";
          "artists" := JArr [JObj {[ "name" := JStr "Carly Rae Jepsen" ]}];
          "album" := demo_album date precision;
          "duration_ms" := duration_ms ]}.

Definition demo_album_data : json := JObj {[ "label" := JStr "Interscope" ]}.

Definition demo_item (n : string) : json :=
  JObj {[ "id" := JStr ("id-" +:+ n);
          "name" := JStr ("track " +:+ n);
          "artists" := JArr [JObj {[ "name" := JStr ("artist " +:+ n) ]}];
          "album" := JObj {[ "name" := JStr ("album " +:+ n) ]} ]}.

(** A provider that answers the token request with [token_body], the
    search with [search_body] and the two lookups with [track_body] and
    the demo album. *)
Definition demo_requests (token_body search_body track_body : json) : Requests :=
  {| post_json := fun url _ _ =>
       if String.eqb url "https://accounts.spotify.com/api/token"
       then Ok token_body else Raise RequestException;
     get_json := fun url _ _ =>
       if String.eqb url "https://api.spotify.com/v1/search" then Ok search_body
       else if String.eqb url "https://api.spotify.com/v1/tracks/11dFghVXANMlKmJXsNCbNl"
       then Ok track_body
       else if String.eqb url "https://api.spotify.com/v1/albums/4aawyAB9vmqN3uQ7FjRGTy"
       then Ok demo_album_data
       else Raise RequestException |}.

Definition demo_client : Spotify :=
  mkSpotify "id" "secret" "https://api.spotify.com/v1"
            (Some {[ "Authorization" := "Bearer BQDf3" ]}).

Definition demo_row (position : Z) (name artist album : string) : list json :=
  [JInt position; JStr name; JStr artist; JStr album; JStr "11dFghVXANMlKmJXsNCbNl"].

(** The client run against the demo provider. *)
Definition demo_trackinfo (date precision duration_ms : json) (row : list json)
    : result (gmap string json) :=
  @trackinfo demo_unicode demo_builtins
     (demo_requests JNull JNull (demo_track date precision duration_ms))
     demo_client row.

Definition demo_search (search_body limit : json) : result (list (list json)) :=
  @search_track (demo_requests JNull search_body JNull) demo_client "feeling" limit.

Definition demo_authorize (token_body : json) : result unit * Spotify :=
  @authorization_header demo_builtins (demo_requests token_body JNull JNull)
     (mkSpotify "id" "secret" "https://api.spotify.com/v1" None).

Definition demo_row' : list json := demo_row 7 "Other" "Somebody" "Elsewhere".

(** The record the demo provider's answers lead to. *)
Definition demo_info (date : json) (duration release_date : string)
    : gmap string json :=
  @info_of demo_builtins (JStr "4aawyAB9vmqN3uQ7FjRGTy") (JStr "Cut To The Feeling")
    (JStr "Carly Rae Jepsen") date duration (JStr "https://i.scdn.co/image/ab67616d")
    release_date (JStr "Interscope") (JStr "11dFghVXANMlKmJXsNCbNl").

Definition demo_search_body (items : list json) : json :=
  JObj {[ "tracks" := JObj {[ "items" := JArr items ]} ]}.

Definition demo_items : list json :=
  map demo_item ["a"; "b"; "c"; "d"; "e"; "f"; "g"; "h"; "i"; "j"; "k"; "l"].

(** A track whose album has no image. *)
Definition demo_track_no_image : json :=
  JObj {[ "id" := JStr "11dFghVXANMlKmJXsNCbNl";
          "name" := JStr "Cut To The Feeling";
          "artists" := JArr [JObj {[ "name" := JStr "Carly Rae Jepsen" ]}];
          "album" := JObj {[ "id" := JStr "4aawyAB9vmqN3uQ7FjRGTy";
                             "release_date" := JStr "2021-05-10";
                             "release_date_precision" := JStr "day";
                             "images" := JArr [] ]};
          "duration_ms" := JInt 185000 ]}.

(** The demo provider with another album response. *)
Definition demo_requests_album (track_body album_body : json) : Requests :=
  {| post_json := fun _ _ _ => Raise RequestException;
     get_json := fun url _ _ =>
       if String.eqb url "https://api.spotify.com/v1/tracks/11dFghVXANMlKmJXsNCbNl"
       then Ok track_body
       else if String.eqb url "https://api.spotify.com/v1/albums/4aawyAB9vmqN3uQ7FjRGTy"
       then Ok album_body
       else Raise RequestException |}.

(** The full-width digit [k], U+FF10 + k, in UTF-8. *)
Definition fullwidth (k : nat) : string :=
  String "239" (String "188" (String (ascii_of_nat (144 + k)) EmptyString)).

(** The year 2021 written with full-width digits. *)
Definition fullwidth_2021 : string :=
  fullwidth 2 +:+ fullwidth 0 +:+ fullwidth 2 +:+ fullwidth 1.

(** The entry of a returned record, when there is one. *)
Definition field (r : result (gmap string json)) (k : string) : option json :=
  match r with
  | Ok info => info !! k
  | Raise _ => None
  end.

(** * Properties *)

(** ** The error monad *)

Lemma bind_Ok {A B : Type} (r : result A) (k : A -> result B) (b : B) :
  bind r k = Ok b -> exists a, r = Ok a /\ k a = Ok b.
Proof. destruct r as [a|e]; simpl; [eauto | discriminate]. Qed.

Lemma bind_Ok_l {A B : Type} (r : result A) (k : A -> result B) (a : A) :
  r = Ok a -> bind r k = k a.
Proof. intros ->. reflexivity. Qed.

(** Peel the successful steps off a run that returned. *)
Ltac bind_inv H :=
  repeat match type of H with
  | bind _ _ = Ok _ =>
      let a := fresh "v" in
      let E := fresh "E" in
      apply bind_Ok in H; destruct H as (a & E & H)
  end.

(** ** Decimal text and padding *)

Lemma string_of_uint_length (d : Decimal.uint) :
  (1 <= String.length (NilZero.string_of_uint d))%nat.
Proof. destruct d; simpl; lia. Qed.

Lemma zfill_long (width : nat) (s : string) :
  (width <= String.length s)%nat -> zfill width s = s.
Proof.
  intros Hlen. unfold zfill.
  replace (width - String.length s)%nat with 0%nat by lia. reflexivity.
Qed.

(** Padding after the sign, as [02d] does, and padding in front of the
    whole text give the same two-digit rendering: a negative number
    already fills the width. *)
Lemma format_02d_int_two_digits (n : Z) : format_02d_int n = two_digits n.
Proof.
  unfold format_02d_int, two_digits, dec.
  destruct n as [|p|p]; try reflexivity.
  change (Z.neg p <? 0) with true. cbv iota.
  change (Z.abs (Z.neg p)) with (Z.pos p).
  change (Z.to_int (Z.pos p)) with (Decimal.Pos (Pos.to_uint p)).
  change (Z.to_int (Z.neg p)) with (Decimal.Neg (Pos.to_uint p)).
  pose proof (string_of_uint_length (Pos.to_uint p)) as Hlen.
  change (NilZero.string_of_int (Decimal.Pos (Pos.to_uint p)))
    with (NilZero.string_of_uint (Pos.to_uint p)).
  change (NilZero.string_of_int (Decimal.Neg (Pos.to_uint p)))
    with (String "-" (NilZero.string_of_uint (Pos.to_uint p))).
  rewrite !zfill_long; simpl; try lia. reflexivity.
Qed.

(** ** Parsing and printing the release date *)

Section Dates.
Context `{Unicode}.

Lemma append_cons (c : ascii) (s t : string) :
  String c s +:+ t = String c (s +:+ t).
Proof. reflexivity. Qed.

Lemma append_nil_r (s : string) : s +:+ EmptyString = s.
Proof.
  induction s as [|c s IH]; [reflexivity|]. now rewrite append_cons, IH.
Qed.

Lemma has_shape_app (p1 p2 : list shape) (s1 s2 : string) :
  has_shape p1 s1 = true -> has_shape p2 s2 = true ->
  has_shape (p1 ++ p2) (s1 +:+ s2) = true.
Proof.
  revert s1. induction p1 as [|x p1 IH]; intros s1 H1 H2.
  - destruct s1; [exact H2 | discriminate].
  - destruct x, s1; simpl in *; try discriminate;
      apply andb_prop in H1 as [Hc H1]; rewrite Hc; simpl; now apply IH.
Qed.

Lemma bounded_check (f : Z -> bool) (lo n : Z) :
  forallb f (seqZ lo n) = true ->
  forall x, lo <= x < lo + n -> f x = true.
Proof.
  intros Hall x Hx. rewrite forallb_forall in Hall.
  apply Hall, list_elem_of_In, elem_of_seqZ. lia.
Qed.

(** A year from 1000 on prints on four digits. *)
Lemma year_shape (y : Z) :
  1000 <= y <= 9999 -> has_shape YYYY (dec y) = true.
Proof.
  intros Hy.
  apply (bounded_check (fun y => has_shape YYYY (dec y)) 1000 9000); [|lia].
  vm_compute. reflexivity.
Qed.

(** Every day of a month prints on two digits. *)
Lemma day_text_shape (d : Z) :
  1 <= d <= 31 -> has_shape [SDigit; SDigit] (zfill 2 (dec d)) = true.
Proof.
  intros Hd.
  apply (bounded_check (fun d => has_shape [SDigit; SDigit] (zfill 2 (dec d))) 1 31); [|lia].
  vm_compute. reflexivity.
Qed.

Lemma month_then_name (p : list shape) (m : Z) (rest : string) :
  1 <= m <= 12 -> has_shape p rest = true ->
  month_then p (month_name m +:+ String " " rest) = true.
Proof.
  intros Hm Hrest.
  assert (Hcases : m = 1 \/ m = 2 \/ m = 3 \/ m = 4 \/ m = 5 \/ m = 6 \/ m = 7 \/
                   m = 8 \/ m = 9 \/ m = 10 \/ m = 11 \/ m = 12) by lia.
  unfold month_then.
  repeat (destruct Hcases as [-> | Hcases]); try subst m;
    simpl; rewrite Hrest; reflexivity.
Qed.

Lemma valid_date_bounds (y m d : Z) :
  valid_date y m d = true -> 1 <= y <= 9999 /\ 1 <= m <= 12 /\ 1 <= d <= 31.
Proof.
  unfold valid_date, days_in_month. intros Hv.
  repeat (apply andb_prop in Hv as [Hv ?]).
  assert (d <= 31).
  { destruct (m =? 2); [destruct (is_leap y)|
      destruct ((m =? 4) || (m =? 6) || (m =? 9) || (m =? 11))]; lia. }
  lia.
Qed.

Lemma strftime_B_d_Y (dt : datetime) :
  strftime dt "%B %d, %Y" =
    month_name (month dt) +:+ " " +:+ zfill 2 (dec (day dt)) +:+ ", " +:+ dec (year dt).
Proof. simpl. unfold strftime_directive. simpl. now rewrite append_nil_r. Qed.

(** What the client prints for a valid date from the year 1000 on has the
    shape [Month DD, YYYY]. *)
Lemma strftime_is_Month_DD_YYYY (dt : datetime) :
  valid_date (year dt) (month dt) (day dt) = true ->
  1000 <= year dt ->
  is_Month_DD_YYYY (strftime dt "%B %d, %Y") = true.
Proof.
  intros Hv Hlong. apply valid_date_bounds in Hv as (Hy & Hm & Hd).
  rewrite strftime_B_d_Y. apply month_then_name; [exact Hm|].
  apply (has_shape_app [SDigit; SDigit] ([SChar ","; SChar " "] ++ YYYY)).
  - now apply day_text_shape.
  - simpl. apply year_shape. lia.
Qed.

(** A match binds only groups of the pattern. *)
Lemma rmatch_groups (r : regex) :
  forall (s : string) (g : gmap string string) (m rest : string),
    In (g, m, rest) (rmatch r s) -> dom g ⊆ group_names r.
Proof.
  assert (Hstep : forall ok s (g : gmap string string) m rest,
             In (g, m, rest) (step ok s) -> g = ∅).
  { intros ok [|c s] g m rest; simpl; [tauto|].
    destruct (ok c); simpl; [|tauto]. intros [Heq|[]]. congruence. }
  induction r as [| c | | lo hi | r1 IH1 r2 IH2 | r1 IH1 r2 IH2 | name r1 IH1];
    intros s g m rest Hin; simpl in *.
  - destruct Hin as [Heq|[]]. injection Heq as <- _ _. set_solver.
  - apply Hstep in Hin as ->. set_solver.
  - unfold step_digit in Hin.
    destruct (digit_at s) as [[[v text] rest']|]; [|destruct Hin].
    destruct Hin as [Heq|[]]. injection Heq as <- _ _. set_solver.
  - apply Hstep in Hin as ->. set_solver.
  - apply in_flat_map in Hin as ([[g1 m1] rest1] & Hin1 & Hin2).
    apply in_map_iff in Hin2 as ([[g2 m2] rest2] & Heq & Hin2).
    injection Heq as <- _ _. rewrite dom_union_L.
    apply union_mono; [exact (IH1 _ _ _ _ Hin1) | exact (IH2 _ _ _ _ Hin2)].
  - apply in_app_iff in Hin as [Hin|Hin].
    + etrans; [exact (IH1 _ _ _ _ Hin) | apply union_subseteq_l].
    + etrans; [exact (IH2 _ _ _ _ Hin) | apply union_subseteq_r].
  - apply in_map_iff in Hin as ([[g1 m1] rest1] & Heq & Hin1).
    injection Heq as <- _ _. rewrite dom_insert_L.
    apply union_mono_l. exact (IH1 _ _ _ _ Hin1).
Qed.

(** What a successful [strptime] went through. *)
Lemma strptime_Ok_inv (v : json) (format : string) (dt : datetime) :
  strptime v format = Ok dt ->
  exists s format_regex found m,
    v = JStr s /\
    TimeRE_pattern format = Ok format_regex /\
    In (found, m, EmptyString) (rmatch format_regex s) /\
    dt = mkdate (group_int found "Y" 1900) (group_int found "m" 1)
                (group_int found "d" 1) /\
    valid_date (year dt) (month dt) (day dt) = true.
Proof.
  unfold strptime. destruct v; try discriminate. intros Hrun.
  apply bind_Ok in Hrun as (re & Hre & Hrun).
  destruct (rmatch re s) as [|[[found m] rest] others] eqn:Hm; [discriminate|].
  destruct rest; [|discriminate].
  destruct valid_date eqn:Hv; [|discriminate]. injection Hrun as <-.
  exists s, re, found, m. simpl. rewrite Hm. simpl. auto.
Qed.

Lemma group_int_unbound (r : regex) (s : string) (found : gmap string string)
    (m rest name : string) (default : Z) :
  In (found, m, rest) (rmatch r s) -> name ∉ group_names r ->
  group_int found name default = default.
Proof.
  intros Hin Hname. apply rmatch_groups in Hin. unfold group_int.
  rewrite (not_elem_of_dom_1 found name); [reflexivity|].
  intros Hdom. apply Hname, Hin, Hdom.
Qed.

(** A date parsed to the month is the first of that month. *)
Lemma strptime_month_day (v : json) (dt : datetime) :
  strptime v "%Y-%m" = Ok dt -> day dt = 1.
Proof.
  intros Hrun.
  apply strptime_Ok_inv in Hrun as (s & re & found & m & _ & Hre & Hin & -> & _).
  injection Hre as <-. simpl.
  apply (group_int_unbound _ _ _ _ _ _ _ Hin). simpl.
  set_unfold. intuition discriminate.
Qed.

(** A date parsed to the year is the first of January. *)
Lemma strptime_year_month_day (v : json) (dt : datetime) :
  strptime v "%Y" = Ok dt -> month dt = 1 /\ day dt = 1.
Proof.
  intros Hrun.
  apply strptime_Ok_inv in Hrun as (s & re & found & m & _ & Hre & Hin & -> & _).
  injection Hre as <-. simpl.
  split; apply (group_int_unbound _ _ _ _ _ _ _ Hin); simpl;
    set_unfold; intuition discriminate.
Qed.

(** What [strptime] returns is a day of the calendar. *)
Lemma strptime_valid (v : json) (format : string) (dt : datetime) :
  strptime v format = Ok dt -> valid_date (year dt) (month dt) (day dt) = true.
Proof.
  intros Hrun. apply strptime_Ok_inv in Hrun.
  now destruct Hrun as (? & ? & ? & ? & ? & ? & ? & ? & ?).
Qed.

(** The empty format accepts the empty text only. *)
Lemma strptime_empty_format (s : string) :
  s <> EmptyString -> strptime (JStr s) EmptyString = Raise ValueError.
Proof. destruct s; [congruence | reflexivity]. Qed.

Lemma strptime_empty_format_Ok (v : json) (dt : datetime) :
  strptime v EmptyString = Ok dt -> v = JStr EmptyString.
Proof.
  destruct v; try discriminate. destruct s; [reflexivity | discriminate].
Qed.

Lemma date_format_of_key (p : string) :
  p = "day" \/ p = "month" \/ p = "year" ->
  date_format_of (JStr p) =
    Ok (if String.eqb p "day" then "%Y-%m-%d"
        else if String.eqb p "month" then "%Y-%m" else "%Y").
Proof. intros [-> | [-> | ->]]; reflexivity. Qed.

Lemma date_format_of_default (precision : json) :
  hashable precision = true ->
  precision <> JStr "day" -> precision <> JStr "month" -> precision <> JStr "year" ->
  date_format_of precision = Ok EmptyString.
Proof.
  intros Hh Hd Hm Hy. destruct precision; try discriminate; try reflexivity.
  simpl.
  destruct (String.eqb_spec s "day"); [congruence|].
  destruct (String.eqb_spec s "month"); [congruence|].
  destruct (String.eqb_spec s "year"); [congruence|]. reflexivity.
Qed.

(** ** Release dates as the provider writes them are accepted *)

Lemma append_assoc (s t u : string) : (s +:+ t) +:+ u = s +:+ (t +:+ u).
Proof.
  induction s as [|ch s IH]; [reflexivity|]. now rewrite !append_cons, IH.
Qed.

Lemma year_digits (y : Z) :
  1 <= y <= 9999 ->
  exists a b c d,
    year_text y = String a (String b (String c (String d EmptyString))) /\
    is_digit a = true /\ is_digit b = true /\ is_digit c = true /\ is_digit d = true /\
    py_int (String a (String b (String c (String d EmptyString)))) = y.
Proof.
  intros Hy.
  assert (Hok : year_digits_ok y = true).
  { apply (bounded_check year_digits_ok 1 9999); [vm_compute; reflexivity | lia]. }
  unfold year_digits_ok in Hok.
  destruct (year_text y) as [|a [|b [|c [|d [|? ?]]]]] eqn:Htext; try discriminate.
  apply andb_prop in Hok as [Hok Hint]. apply andb_prop in Hok as [Hok Hd].
  apply andb_prop in Hok as [Hok Hc]. apply andb_prop in Hok as [Ha Hb].
  exists a, b, c, d. repeat split; try assumption. now apply Z.eqb_eq.
Qed.

(** An ASCII digit is a decimal digit with its own value. *)
Lemma digit_at_ascii (a : ascii) (rest : string) :
  is_digit a = true ->
  digit_at (String a rest) = Some (digit_value a, String a EmptyString, rest).
Proof.
  destruct a as [[] [] [] [] [] [] [] []]; intros Ha; try discriminate Ha;
    reflexivity.
Qed.

Lemma step_digit_ascii (a : ascii) (rest : string) :
  is_digit a = true ->
  step_digit (String a rest) = [(∅, String a EmptyString, rest)].
Proof. intros Ha. unfold step_digit. now rewrite (digit_at_ascii a rest Ha). Qed.

(** Four digits are matched by the year group in one way only. *)
Lemma rmatch_Y_group (a b c d : ascii) (rest : string) :
  is_digit a = true -> is_digit b = true -> is_digit c = true -> is_digit d = true ->
  exists g : gmap string string,
    rmatch Y_group (String a (String b (String c (String d rest)))) =
      [(g, String a (String b (String c (String d EmptyString))), rest)] /\
    g !! "Y" = Some (String a (String b (String c (String d EmptyString)))) /\
    g !! "m" = None /\ g !! "d" = None.
Proof.
  intros Ha Hb Hc Hd. unfold Y_group.
  cbn [rmatch]. rewrite (step_digit_ascii a _ Ha). cbn [rmatch flat_map map app].
  rewrite (step_digit_ascii b _ Hb). cbn [rmatch flat_map map app].
  rewrite (step_digit_ascii c _ Hc). cbn [rmatch flat_map map app].
  rewrite (step_digit_ascii d _ Hd). cbn [rmatch flat_map map app].
  eexists. split; [reflexivity|]. repeat split.
Qed.

Lemma strptime_after_year (format : string) (r : regex) (a b c d : ascii)
    (rest : string) (y m dd : Z) :
  TimeRE_pattern format = Ok (RSeq Y_group r) ->
  is_digit a = true -> is_digit b = true -> is_digit c = true -> is_digit d = true ->
  py_int (String a (String b (String c (String d EmptyString)))) = y ->
  after_year r rest m dd = true ->
  valid_date y m dd = true ->
  strptime (JStr (String a (String b (String c (String d rest))))) format
    = Ok (mkdate y m dd).
Proof.
  intros Hfmt Ha Hb Hc Hd Hy Hafter Hvalid.
  destruct (rmatch_Y_group a b c d rest Ha Hb Hc Hd) as (g & Hg & HgY & Hgm & Hgd).
  unfold strptime. rewrite Hfmt. cbn [bind rmatch]. rewrite Hg.
  cbn [flat_map app]. unfold after_year in Hafter.
  destruct (rmatch r rest) as [|[[g2 m2] rest2] others]; [discriminate|].
  destruct rest2; [|discriminate].
  apply andb_prop in Hafter as [Hm Hdd]. apply Z.eqb_eq in Hm, Hdd.
  cbn [map app].
  assert (HY : group_int (g ∪ g2) "Y" 1900 = y).
  { unfold group_int. rewrite (lookup_union_Some_l g g2 _ _ HgY). exact Hy. }
  assert (HM : group_int (g ∪ g2) "m" 1 = m).
  { unfold group_int in *. rewrite lookup_union_r by exact Hgm. exact Hm. }
  assert (HD : group_int (g ∪ g2) "d" 1 = dd).
  { unfold group_int in *. rewrite lookup_union_r by exact Hgd. exact Hdd. }
  rewrite HY, HM, HD, Hvalid. reflexivity.
Qed.

Lemma month_tail_matches (m : Z) :
  1 <= m <= 12 -> after_year month_tail ("-" +:+ zfill 2 (dec m)) m 1 = true.
Proof.
  intros Hm.
  apply (bounded_check
           (fun m => after_year month_tail ("-" +:+ zfill 2 (dec m)) m 1) 1 12);
    [vm_compute; reflexivity | lia].
Qed.

Lemma day_tail_matches (m d : Z) :
  1 <= m <= 12 -> 1 <= d <= 31 ->
  after_year day_tail ("-" +:+ zfill 2 (dec m) +:+ "-" +:+ zfill 2 (dec d)) m d = true.
Proof.
  intros Hm Hd.
  assert (Hall : forallb
            (fun m => forallb
               (fun d => after_year day_tail
                           ("-" +:+ zfill 2 (dec m) +:+ "-" +:+ zfill 2 (dec d)) m d)
               (seqZ 1 31)) (seqZ 1 12) = true) by (vm_compute; reflexivity).
  assert (Hrow := bounded_check _ 1 12 Hall m ltac:(lia)). cbv beta in Hrow.
  apply (bounded_check _ 1 31 Hrow d). lia.
Qed.

(** [YYYY-MM-DD] for a date of the calendar parses to that date. *)
Lemma strptime_day_text (y m d : Z) :
  valid_date y m d = true ->
  strptime (JStr (day_text y m d)) "%Y-%m-%d" = Ok (mkdate y m d).
Proof.
  intros Hv. destruct (valid_date_bounds y m d Hv) as (Hy & Hm & Hd).
  destruct (year_digits y Hy) as (a & b & c & d0 & Htext & Ha & Hb & Hc & Hd0 & Hint).
  unfold day_text, month_text. rewrite Htext, !append_assoc.
  apply (strptime_after_year _ day_tail a b c d0 _ y m d); try assumption.
  - reflexivity.
  - now apply day_tail_matches.
Qed.

(** [YYYY-MM] parses to the first day of that month. *)
Lemma strptime_month_text (y m : Z) :
  1 <= y <= 9999 -> 1 <= m <= 12 ->
  strptime (JStr (month_text y m)) "%Y-%m" = Ok (mkdate y m 1).
Proof.
  intros Hy Hm.
  destruct (year_digits y Hy) as (a & b & c & d0 & Htext & Ha & Hb & Hc & Hd0 & Hint).
  unfold month_text. rewrite Htext.
  apply (strptime_after_year _ month_tail a b c d0 _ y m 1); try assumption.
  - reflexivity.
  - now apply month_tail_matches.
  - unfold valid_date, days_in_month.
    destruct (m =? 2); [destruct (is_leap y)|
      destruct ((m =? 4) || (m =? 6) || (m =? 9) || (m =? 11))]; lia.
Qed.

(** [YYYY] parses to the first of January of that year. *)
Lemma strptime_year_text (y : Z) :
  1 <= y <= 9999 -> strptime (JStr (year_text y)) "%Y" = Ok (mkdate y 1 1).
Proof.
  intros Hy.
  destruct (year_digits y Hy) as (a & b & c & d0 & Htext & Ha & Hb & Hc & Hd0 & Hint).
  rewrite Htext.
  apply (strptime_after_year _ REmpty a b c d0 _ y 1 1); try assumption.
  - reflexivity.
  - reflexivity.
  - unfold valid_date, days_in_month. simpl. lia.
Qed.

(** X19: a day of the calendar written [YYYY-MM-DD], with precision [day],
    is printed as its month name, its day on two digits and its year as
    a plain number: the zeros that fill the year in the text are not
    printed back. *)
Lemma format_release_date_day (y m d : Z) :
  valid_date y m d = true ->
  format_release_date (JStr (day_text y m d)) (JStr "day")
    = Ok (month_name m +:+ " " +:+ zfill 2 (dec d) +:+ ", " +:+ dec y).
Proof.
  intros Hv. unfold format_release_date.
  change (date_format_of (JStr "day")) with (Ok (A := string) "%Y-%m-%d").
  cbn [bind]. rewrite (strptime_day_text y m d Hv). cbn [bind].
  now rewrite strftime_B_d_Y.
Qed.

(** X20: a month written [YYYY-MM], with precision [month], is printed as
    the first day of that month, the year as a plain number. *)
Lemma format_release_date_month (y m : Z) :
  1 <= y <= 9999 -> 1 <= m <= 12 ->
  format_release_date (JStr (month_text y m)) (JStr "month")
    = Ok (month_name m +:+ " 01, " +:+ dec y).
Proof.
  intros Hy Hm. unfold format_release_date.
  change (date_format_of (JStr "month")) with (Ok (A := string) "%Y-%m").
  cbn [bind]. rewrite (strptime_month_text y m Hy Hm). cbn [bind].
  now rewrite strftime_B_d_Y.
Qed.

(** X21: a year written [YYYY], with precision [year], is printed as the
    first of January of that year, the year as a plain number. *)
Lemma format_release_date_year (y : Z) :
  1 <= y <= 9999 ->
  format_release_date (JStr (year_text y)) (JStr "year")
    = Ok ("January 01, " +:+ dec y).
Proof.
  intros Hy. unfold format_release_date.
  change (date_format_of (JStr "year")) with (Ok (A := string) "%Y").
  cbn [bind]. rewrite (strptime_year_text y Hy). cbn [bind].
  now rewrite strftime_B_d_Y.
Qed.

End Dates.

(** ** Authentication *)

Section ClientFacts.
Context `{Unicode} `{Builtins} `{Requests}.

Lemma authorization_header_run_Ok (self : Spotify) (data token : json) :
  token_response self = Ok data ->
  getitem data "access_token" = Ok token ->
  authorization_header self =
    (Ok tt, set_AUTH_HEADER self {[ "Authorization" := "Bearer " +:+ py_str token ]}).
Proof.
  intros Hresp Htok. unfold authorization_header.
  rewrite Hresp. simpl. rewrite Htok. reflexivity.
Qed.

Lemma authorization_header_run_Raise (self : Spotify) (data : json) (e : exn) :
  token_response self = Ok data ->
  getitem data "access_token" = Raise e ->
  authorization_header self = (Raise e, self).
Proof.
  intros Hresp Htok. unfold authorization_header.
  rewrite Hresp. simpl. rewrite Htok. reflexivity.
Qed.

Lemma getitem_Some (o : gmap string json) (k : string) (x : json) :
  o !! k = Some x -> getitem (JObj o) k = Ok x.
Proof. intros Hk. simpl. rewrite Hk. reflexivity. Qed.

Lemma getitem_None (o : gmap string json) (k : string) :
  o !! k = None -> getitem (JObj o) k = Raise KeyError.
Proof. intros Hk. simpl. rewrite Hk. reflexivity. Qed.

(** C5: a token response with an access-token field [t] leaves
    [{"Authorization": "Bearer t"}] as the stored header. *)
Theorem authorization_header_stores_bearer (self : Spotify)
    (body : gmap string json) (token : json) :
  token_response self = Ok (JObj body) ->
  body !! "access_token" = Some token ->
  (authorization_header self).1 = Ok tt
  /\ AUTH_HEADER (authorization_header self).2 =
       Some {[ "Authorization" := "Bearer " +:+ py_str token ]}
  /\ forall t, token = JStr t ->
       AUTH_HEADER (authorization_header self).2 =
         Some {[ "Authorization" := "Bearer " +:+ t ]}.
Proof.
  intros Hresp Htok.
  rewrite (authorization_header_run_Ok self _ token Hresp (getitem_Some _ _ _ Htok)).
  simpl. repeat split. intros t ->. reflexivity.
Qed.

(** C6: a token response without the access-token field makes
    authentication fail with the lookup error of the subscript
    ([KeyError], raised by the dict itself); the instance is left as it
    was, so no header is stored. *)
Theorem authorization_header_missing_token (self : Spotify)
    (body : gmap string json) :
  token_response self = Ok (JObj body) ->
  body !! "access_token" = None ->
  (authorization_header self).1 = Raise KeyError
  /\ (authorization_header self).2 = self
  /\ AUTH_HEADER (authorization_header self).2 = AUTH_HEADER self.
Proof.
  intros Hresp Htok.
  rewrite (authorization_header_run_Raise self _ _ Hresp (getitem_None _ _ Htok)).
  repeat split.
Qed.

(** The constructor sets no header before it authenticates, so a failed
    authentication yields no client at all. *)
Lemma init_missing_token (client_id client_secret : string)
    (body : gmap string json) :
  token_response (mkSpotify client_id client_secret "https://api.spotify.com/v1" None)
    = Ok (JObj body) ->
  body !! "access_token" = None ->
  init client_id client_secret = Raise KeyError.
Proof.
  intros Hresp Htok. unfold init.
  rewrite (authorization_header_run_Raise _ _ _ Hresp (getitem_None _ _ Htok)).
  reflexivity.
Qed.

(** X22: a token response whose body is not an object (a list, a string,
    a number, null) makes authentication fail with [TypeError], and the
    instance is left as it was. *)
Lemma authorization_header_not_object (self : Spotify) (data : json) :
  token_response self = Ok data ->
  (forall body, data <> JObj body) ->
  authorization_header self = (Raise TypeError, self).
Proof.
  intros Hresp Hno. apply (authorization_header_run_Raise self data); [exact Hresp|].
  destruct data; simpl; try reflexivity. now destruct (Hno o).
Qed.

(** ** Search *)

(** C9: when the body lacks [tracks], or its [tracks] object lacks
    [items], the defaults of [dict.get] make the search return the empty
    sequence. *)
Theorem search_track_missing_keys (self : Spotify) (track_name : string)
    (limit : json) (body : gmap string json) :
  search_response self track_name limit = Ok (JObj body) ->
  (body !! "tracks" = None \/
   exists found, body !! "tracks" = Some (JObj found) /\ found !! "items" = None) ->
  search_track self track_name limit = Ok [].
Proof.
  intros Hresp Hmiss. unfold search_track. rewrite Hresp. simpl.
  destruct Hmiss as [-> | (found & -> & Hitems)]; simpl.
  - reflexivity.
  - rewrite Hitems. reflexivity.
Qed.

Lemma track_row_item (i : Z) (item : json) :
  is_track_item item ->
  exists name artist album trackid,
    getitem item "name" = Ok name /\
    getitem_first item "artists" "name" = Ok artist /\
    getitem2 item "album" "name" = Ok album /\
    getitem item "id" = Ok trackid /\
    track_row i item = Ok [JInt i; name; artist; album; trackid].
Proof.
  intros ([name Hn] & [artist Ha] & [album Hal] & [trackid Hid]).
  exists name, artist, album, trackid. unfold track_row.
  rewrite Hn, Ha, Hal, Hid. simpl. auto.
Qed.

(** The loop appends one row per item, in order, numbering from [i]. *)
Lemma search_loop_rows (items : list json) :
  Forall is_track_item items ->
  forall (tracks : list (list json)) (i : Z),
  exists rows,
    search_loop tracks i items = Ok (tracks ++ rows) /\
    length rows = length items /\
    forall (k : nat) (item : json), items !! k = Some item ->
      exists row, track_row (i + Z.of_nat k) item = Ok row /\ rows !! k = Some row.
Proof.
  induction 1 as [|item rest Hitem _ IH]; intros tracks i.
  - exists []. rewrite app_nil_r. repeat split. intros k item Hk.
    rewrite lookup_nil in Hk. discriminate.
  - destruct (track_row_item i item Hitem)
      as (name & artist & album & trackid & _ & _ & _ & _ & Hrow).
    destruct (IH (tracks ++ [[JInt i; name; artist; album; trackid]]) (i + 1))
      as (rows & Hloop & Hlen & Hrows).
    exists ([JInt i; name; artist; album; trackid] :: rows).
    split; [|split].
    + simpl. rewrite Hrow. simpl. rewrite Hloop, <- app_assoc. reflexivity.
    + simpl. now rewrite Hlen.
    + intros [|k] it Hk; simpl in Hk.
      * injection Hk as <-. exists [JInt i; name; artist; album; trackid].
        rewrite Z.add_0_r. auto.
      * destruct (Hrows k it Hk) as (row & Hr & Hl).
        exists row. split; [|exact Hl].
        replace (i + Z.of_nat (S k)) with (i + 1 + Z.of_nat k) by lia. exact Hr.
Qed.

(** C2: for a response with N track items and any [limit], the search
    returns min(N, 10) rows; row k is built from item k of the response
    and carries the position k+1; no items give no rows. *)
Theorem search_track_rows (self : Spotify) (track_name : string) (limit : json)
    (body found : gmap string json) (items : list json) :
  search_response self track_name limit = Ok (JObj body) ->
  body !! "tracks" = Some (JObj found) ->
  found !! "items" = Some (JArr items) ->
  Forall is_track_item (take 10 items) ->
  exists rows,
    search_track self track_name limit = Ok rows /\
    length rows = Nat.min (length items) 10 /\
    (forall k : nat, (k < length rows)%nat ->
       exists item name artist album trackid,
         items !! k = Some item /\
         getitem item "name" = Ok name /\
         getitem_first item "artists" "name" = Ok artist /\
         getitem2 item "album" "name" = Ok album /\
         getitem item "id" = Ok trackid /\
         rows !! k = Some [JInt (Z.of_nat k + 1); name; artist; album; trackid]) /\
    (items = [] -> rows = []).
Proof.
  intros Hresp Htracks Hitems Hall.
  destruct (search_loop_rows (take 10 items) Hall [] 1) as (rows & Hloop & Hlen & Hrows).
  exists rows. rewrite length_take in Hlen.
  split; [|split; [|split]].
  - unfold search_track. rewrite Hresp. simpl. rewrite Htracks. simpl.
    rewrite Hitems. simpl. exact Hloop.
  - lia.
  - intros k Hk.
    assert (Hk10 : (k < 10)%nat) by lia.
    destruct (lookup_lt_is_Some_2 items k) as [item Hitem]; [lia|].
    assert (Htake : take 10 items !! k = Some item) by now rewrite lookup_take_lt.
    destruct (Hrows k item Htake) as (row & Hrow & Hlook).
    destruct (track_row_item (1 + Z.of_nat k) item
                (Forall_lookup_1 _ _ _ _ Hall Htake))
      as (name & artist & album & trackid & Hn & Ha & Hal & Hid & Hrow').
    exists item, name, artist, album, trackid.
    repeat (split; [assumption|]).
    rewrite Hlook. f_equal. rewrite Hrow in Hrow'. injection Hrow' as ->.
    now rewrite Z.add_comm.
  - intros ->. destruct rows; [reflexivity|]. simpl in Hlen. lia.
Qed.

(** ** Track lookup *)

Lemma list_getitem_Ok (l : list json) (i : nat) (x : json) :
  list_getitem l i = Ok x <-> l !! i = Some x.
Proof.
  unfold list_getitem. destruct (l !! i); split; intros Hx;
    try discriminate; now inversion Hx.
Qed.

(** [trackinfo] returns exactly when every step does, and then returns
    the record of the values read. *)
Lemma trackinfo_Ok_iff (self : Spotify) (track : list json)
    (info : gmap string json) :
  trackinfo self track = Ok info <->
  exists trackid t_data album_id a_data album_label date precision
         release_date name artist duration image track_id,
    trackinfo_steps self track trackid t_data album_id a_data album_label
      date precision release_date name artist duration image track_id /\
    info = info_of album_id name artist date duration image release_date
             album_label track_id.
Proof.
  split.
  - intros Hrun. unfold trackinfo in Hrun. bind_inv Hrun.
    apply list_getitem_Ok in E.
    match goal with
    | E1 : getitem2 ?t "album" "id" = Ok ?a, E2 : getitem2 ?t "album" "id" = Ok ?b |- _ =>
        assert (b = a) as -> by congruence
    end.
    match goal with
    | E1 : getitem2 ?t "album" "release_date" = Ok ?a,
      E2 : getitem2 ?t "album" "release_date" = Ok ?b |- _ =>
        assert (b = a) as -> by congruence
    end.
    injection Hrun as <-.
    do 13 eexists. split; [constructor; eassumption | reflexivity].
  - intros (trackid & t_data & album_id & a_data & album_label & date & precision
            & release_date & name & artist & duration & image & track_id
            & [] & ->).
    unfold trackinfo.
    rewrite (proj2 (list_getitem_Ok _ _ _) step_trackid0). simpl.
    rewrite step_t_data0. simpl. rewrite step_album_id0. simpl.
    rewrite step_a_data0. simpl. rewrite step_label0. simpl.
    rewrite step_date0. simpl. rewrite step_precision0. simpl.
    rewrite step_release_date0. simpl. rewrite step_name0. simpl.
    rewrite step_artist0. simpl. rewrite step_duration0. simpl.
    rewrite step_image0. simpl. rewrite step_track_id0. reflexivity.
Qed.

(** C7: two rows with the same identifier at index 4 give the same
    outcome, whatever their position, name, artist and album. *)
Theorem trackinfo_reads_identifier_only (self : Spotify) (track1 track2 : list json) :
  track1 !! 4%nat = track2 !! 4%nat ->
  trackinfo self track1 = trackinfo self track2.
Proof.
  intros Hid. unfold trackinfo, list_getitem. rewrite Hid. reflexivity.
Qed.

(** C8: the [cover] entry of a returned record is the fixed asset path. *)
Theorem trackinfo_cover_is_fixed (self : Spotify) (track : list json)
    (info : gmap string json) :
  trackinfo self track = Ok info ->
  info !! "cover" = Some (JStr "./assets/spotify_banner.jpg").
Proof.
  intros Hrun. apply trackinfo_Ok_iff in Hrun.
  destruct Hrun as (trackid & t_data & album_id & a_data & album_label & date
                    & precision & release_date & name & artist & duration
                    & image & track_id & _ & ->).
  reflexivity.
Qed.

(** C10: the [year] entry of a returned record is the album's
    [release_date] as the track response carries it. *)
Theorem trackinfo_year_is_release_date (self : Spotify) (track : list json)
    (trackid t_data date : json) (info : gmap string json) :
  track !! 4%nat = Some trackid ->
  track_response self trackid = Ok t_data ->
  getitem2 t_data "album" "release_date" = Ok date ->
  trackinfo self track = Ok info ->
  info !! "year" = Some date.
Proof.
  intros Hid Hresp Hdate Hrun. apply trackinfo_Ok_iff in Hrun.
  destruct Hrun as (trackid' & t_data' & album_id & a_data & album_label & date'
                    & precision & release_date & name & artist & duration
                    & image & track_id & [] & ->).
  assert (trackid' = trackid) as -> by congruence.
  assert (t_data' = t_data) as -> by congruence.
  assert (date' = date) as -> by congruence.
  reflexivity.
Qed.

Lemma format_duration_int (t_data : json) (n : Z) :
  getitem t_data "duration_ms" = Ok (JInt n) ->
  format_duration t_data =
    Ok (two_digits (n / 60000) +:+ ":" +:+ two_digits (n / 1000 mod 60)).
Proof.
  intros Hms. unfold format_duration. rewrite Hms. simpl.
  now rewrite !format_02d_int_two_digits.
Qed.

(** C4: for a track response of [n] milliseconds, the [duration] entry
    of the returned record is [n // 60000] and [(n // 1000) % 60], each
    padded to two digits, around a colon; 185000 gives 03:05 and 59000
    gives 00:59. *)
Theorem trackinfo_duration (self : Spotify) (track : list json)
    (trackid t_data : json) (n : Z) (info : gmap string json) :
  track !! 4%nat = Some trackid ->
  track_response self trackid = Ok t_data ->
  getitem t_data "duration_ms" = Ok (JInt n) ->
  trackinfo self track = Ok info ->
  info !! "duration" =
    Some (JStr (two_digits (n / 60000) +:+ ":" +:+ two_digits (n / 1000 mod 60)))
  /\ (n = 185000 -> info !! "duration" = Some (JStr "03:05"))
  /\ (n = 59000 -> info !! "duration" = Some (JStr "00:59")).
Proof.
  intros Hid Hresp Hms Hrun. apply trackinfo_Ok_iff in Hrun.
  destruct Hrun as (trackid' & t_data' & album_id & a_data & album_label & date
                    & precision & release_date & name & artist & duration
                    & image & track_id & [] & ->).
  assert (trackid' = trackid) as -> by congruence.
  assert (t_data' = t_data) as -> by congruence.
  rewrite (format_duration_int _ _ Hms) in step_duration0.
  injection step_duration0 as <-.
  split; [reflexivity|]. split; intros ->; reflexivity.
Qed.

(** ** The release date *)

Lemma format_release_date_Ok_inv (date precision : json) (release_date : string) :
  format_release_date date precision = Ok release_date ->
  exists date_format parsed,
    date_format_of precision = Ok date_format /\
    strptime date date_format = Ok parsed /\
    release_date = strftime parsed "%B %d, %Y".
Proof.
  unfold format_release_date. intros Hrun. bind_inv Hrun.
  injection Hrun as <-. eauto.
Qed.

(** C1, as the client has it: for the precisions [day], [month] and
    [year] the printed release date, the first line of the [label]
    entry, is always the month name, the day on two digits, a comma and
    the year of a day of the calendar. It has the shape [Month DD, YYYY]
    whenever the year is 1000 or later; an earlier year is printed
    without leading zeros. A date known to the month is printed with day
    01 and a date known to the year as January 01 of that year;
    2021-05-10 with precision [day] prints as May 10, 2021. *)
Theorem trackinfo_release_date_shape (self : Spotify) (track : list json)
    (trackid t_data album_id a_data date : json) (p : string)
    (info : gmap string json) :
  track !! 4%nat = Some trackid ->
  track_response self trackid = Ok t_data ->
  getitem2 t_data "album" "id" = Ok album_id ->
  album_response self album_id = Ok a_data ->
  getitem2 t_data "album" "release_date" = Ok date ->
  getitem2 t_data "album" "release_date_precision" = Ok (JStr p) ->
  p = "day" \/ p = "month" \/ p = "year" ->
  trackinfo self track = Ok info ->
  exists date_format parsed album_label,
    date_format_of (JStr p) = Ok date_format /\
    strptime date date_format = Ok parsed /\
    getitem a_data "label" = Ok album_label /\
    info !! "label" =
      Some (JStr (strftime parsed "%B %d, %Y" +:+ newline +:+ py_str album_label)) /\
    valid_date (year parsed) (month parsed) (day parsed) = true /\
    strftime parsed "%B %d, %Y" =
      month_name (month parsed) +:+ " " +:+ zfill 2 (dec (day parsed)) +:+ ", "
        +:+ dec (year parsed) /\
    (1000 <= year parsed -> is_Month_DD_YYYY (strftime parsed "%B %d, %Y") = true) /\
    (p = "month" -> day parsed = 1) /\
    (p = "year" -> month parsed = 1 /\ day parsed = 1) /\
    (p = "day" -> date = JStr "2021-05-10" ->
       strftime parsed "%B %d, %Y" = "May 10, 2021").
Proof.
  intros Hid Hresp Halbum Haresp Hdate Hprec Hp Hrun.
  apply trackinfo_Ok_iff in Hrun.
  destruct Hrun as (trackid' & t_data' & album_id' & a_data' & album_label & date'
                    & precision & release_date & name & artist & duration
                    & image & track_id & [] & ->).
  assert (trackid' = trackid) as -> by congruence.
  assert (t_data' = t_data) as -> by congruence.
  assert (album_id' = album_id) as -> by congruence.
  assert (a_data' = a_data) as -> by congruence.
  assert (date' = date) as -> by congruence.
  assert (precision = JStr p) as -> by congruence.
  apply format_release_date_Ok_inv in step_release_date0
    as (date_format & parsed & Hfmt & Hparse & ->).
  pose proof (strptime_valid _ _ _ Hparse) as Hvalid.
  exists date_format, parsed, album_label.
  split; [exact Hfmt|]. split; [exact Hparse|]. split; [exact step_label0|].
  split; [reflexivity|]. split; [exact Hvalid|].
  split; [apply strftime_B_d_Y|].
  split; [intros Hlong; now apply strftime_is_Month_DD_YYYY|].
  rewrite (date_format_of_key p Hp) in Hfmt. injection Hfmt as <-.
  split; [|split].
  - intros ->. simpl in Hparse. now apply strptime_month_day in Hparse.
  - intros ->. simpl in Hparse. now apply strptime_year_month_day in Hparse.
  - intros -> ->. vm_compute in Hparse. injection Hparse as <-. reflexivity.
Qed.

(** C3, as the client has it: when the precision is none of [day],
    [month], [year] the format is empty, and [strptime] then refuses
    every release date but the empty text. So unless the release date is
    the empty string no record is returned. The failure is the
    [ValueError] of the date parsing when the steps before it succeed
    (the track response has an album id, the album request answers and
    its response has a label), the precision is hashable and the release
    date is a non-empty string. *)
Theorem trackinfo_unknown_precision_fails (self : Spotify) (track : list json)
    (trackid t_data date precision : json) :
  track !! 4%nat = Some trackid ->
  track_response self trackid = Ok t_data ->
  getitem2 t_data "album" "release_date" = Ok date ->
  getitem2 t_data "album" "release_date_precision" = Ok precision ->
  precision <> JStr "day" -> precision <> JStr "month" -> precision <> JStr "year" ->
  date <> JStr EmptyString ->
  (forall info, trackinfo self track <> Ok info) /\
  (forall album_id a_data album_label s,
     getitem2 t_data "album" "id" = Ok album_id ->
     album_response self album_id = Ok a_data ->
     getitem a_data "label" = Ok album_label ->
     date = JStr s -> hashable precision = true ->
     trackinfo self track = Raise ValueError).
Proof.
  intros Hid Hresp Hdate Hprec Hd Hm Hy Hne. split.
  - intros info Hrun. apply trackinfo_Ok_iff in Hrun.
    destruct Hrun as (trackid' & t_data' & album_id' & a_data' & album_label & date'
                      & precision' & release_date & name & artist & duration
                      & image & track_id & [] & ->).
    assert (trackid' = trackid) as -> by congruence.
    assert (t_data' = t_data) as -> by congruence.
    assert (date' = date) as -> by congruence.
    assert (precision' = precision) as -> by congruence.
    apply format_release_date_Ok_inv in step_release_date0
      as (date_format & parsed & Hfmt & Hparse & _).
    assert (Hh : hashable precision = true)
      by (destruct precision; try reflexivity; simpl in Hfmt; discriminate Hfmt).
    rewrite (date_format_of_default precision Hh Hd Hm Hy) in Hfmt.
    injection Hfmt as <-. now apply strptime_empty_format_Ok in Hparse.
  - intros album_id a_data album_label s Halbum Haresp Hlabel -> Hh.
    unfold trackinfo.
    rewrite (proj2 (list_getitem_Ok _ _ _) Hid). simpl.
    rewrite Hresp. simpl. rewrite Halbum. simpl. rewrite Haresp. simpl.
    rewrite Hlabel. simpl. rewrite Hdate. simpl. rewrite Hprec. simpl.
    unfold format_release_date.
    rewrite (date_format_of_default precision Hh Hd Hm Hy). cbn [bind].
    rewrite strptime_empty_format; [reflexivity | congruence].
Qed.
End ClientFacts.

(** * Further properties of the client *)

Section ClientMore.
Context `{Unicode} `{Builtins} `{Requests}.

(** ** Construction *)

(** X1: the constructor returns a client exactly when the token request
    answers and the answer has an access token; the client then holds the
    two credentials, the API root as base URL and the bearer header made
    from that token. *)
Theorem init_Ok_iff (client_id client_secret : string) (self : Spotify) :
  init client_id client_secret = Ok self <->
  exists data token,
    token_response (mkSpotify client_id client_secret "https://api.spotify.com/v1" None)
      = Ok data /\
    getitem data "access_token" = Ok token /\
    self = mkSpotify client_id client_secret "https://api.spotify.com/v1"
             (Some {[ "Authorization" := "Bearer " +:+ py_str token ]}).
Proof.
  unfold init, authorization_header. split.
  - destruct (token_response _) as [data|e] eqn:Hresp; cbn [bind]; [|discriminate].
    destruct (getitem data "access_token") as [token|e] eqn:Htok; [|discriminate].
    intros Hself. injection Hself as <-. exists data, token. auto.
  - intros (data & token & Hresp & Htok & ->).
    rewrite Hresp. cbn [bind]. rewrite Htok. reflexivity.
Qed.

(** X2: authentication never touches the credentials or the base URL; a
    failed call, whatever the exception, leaves the whole instance as it
    was, and a successful one leaves a header. *)
Theorem authorization_header_frame (self : Spotify) :
  CLIENT_ID (authorization_header self).2 = CLIENT_ID self /\
  CLIENT_SECRET (authorization_header self).2 = CLIENT_SECRET self /\
  BASE_URL (authorization_header self).2 = BASE_URL self /\
  (forall e, (authorization_header self).1 = Raise e ->
     (authorization_header self).2 = self) /\
  ((authorization_header self).1 = Ok tt ->
     AUTH_HEADER (authorization_header self).2 <> None).
Proof.
  unfold authorization_header.
  destruct (let! data := token_response self in getitem data "access_token")
    as [token|e]; simpl; repeat split; try discriminate; auto.
Qed.

(** X3: a client that was constructed sends its requests to the API root
    with the bearer header of the token it was given: the search goes to
    [/search] with the query, the type [track] and the limit, the lookups
    to [/tracks/<id>] and [/albums/<id>] without parameters. *)
Theorem init_then_requests (client_id client_secret : string) (self : Spotify) :
  init client_id client_secret = Ok self ->
  exists token,
    (let! data := token_response
                    (mkSpotify client_id client_secret "https://api.spotify.com/v1" None) in
     getitem data "access_token") = Ok token /\
    (forall track_name limit,
       search_response self track_name limit =
         get_json "https://api.spotify.com/v1/search"
           {[ "q" := JStr track_name; "type" := JStr "track"; "limit" := limit ]}
           {[ "Authorization" := "Bearer " +:+ py_str token ]}) /\
    (forall trackid,
       track_response self trackid =
         get_json ("https://api.spotify.com/v1/tracks/" +:+ py_str trackid) ∅
           {[ "Authorization" := "Bearer " +:+ py_str token ]}) /\
    (forall album_id,
       album_response self album_id =
         get_json ("https://api.spotify.com/v1/albums/" +:+ py_str album_id) ∅
           {[ "Authorization" := "Bearer " +:+ py_str token ]}).
Proof.
  unfold init, authorization_header.
  destruct (let! data := token_response _ in getitem data "access_token")
    as [token|e]; [|discriminate].
  intros Hself. injection Hself as <-. exists token. repeat split.
Qed.

(** ** Search *)

Lemma track_row_Ok_inv (i : Z) (item : json) (row : list json) :
  track_row i item = Ok row ->
  exists name artist album trackid,
    getitem item "name" = Ok name /\
    getitem_first item "artists" "name" = Ok artist /\
    getitem2 item "album" "name" = Ok album /\
    getitem item "id" = Ok trackid /\
    row = [JInt i; name; artist; album; trackid].
Proof.
  unfold track_row. intros Hrow. bind_inv Hrow. injection Hrow as <-.
  do 4 eexists. repeat split; eassumption.
Qed.

(** What the loop returns is what it was given followed by one row per
    item. *)
Lemma search_loop_Ok_inv (items : list json) :
  forall (tracks : list (list json)) (i : Z) (out : list (list json)),
    search_loop tracks i items = Ok out ->
    exists rows,
      out = tracks ++ rows /\
      length rows = length items /\
      forall (k : nat) (item : json), items !! k = Some item ->
        exists row, rows !! k = Some row /\ track_row (i + Z.of_nat k) item = Ok row.
Proof.
  induction items as [|item rest IH]; intros tracks i out Hloop; simpl in Hloop.
  - injection Hloop as <-. exists []. rewrite app_nil_r. repeat split.
    intros k item Hk. rewrite lookup_nil in Hk. discriminate.
  - apply bind_Ok in Hloop as (row & Hrow & Hloop).
    destruct (IH _ _ _ Hloop) as (rows & -> & Hlen & Hrows).
    exists (row :: rows). rewrite <- app_assoc. split; [reflexivity|].
    split; [simpl; now rewrite Hlen|].
    intros [|k] it Hk; simpl in Hk.
    + injection Hk as <-. exists row. rewrite Z.add_0_r. auto.
    + destruct (Hrows k it Hk) as (r & Hr & Ht). exists r. split; [exact Hr|].
      replace (i + Z.of_nat (S k)) with (i + 1 + Z.of_nat k) by lia. exact Ht.
Qed.

Lemma slice10_length (v : json) (l : list json) :
  slice10 v = Ok l -> (length l <= 10)%nat.
Proof.
  destruct v; try discriminate; intros Hl; injection Hl as <-;
    rewrite length_take; lia.
Qed.

Lemma search_track_Ok_inv (self : Spotify) (track_name : string) (limit : json)
    (rows : list (list json)) :
  search_track self track_name limit = Ok rows ->
  exists track_data found items first10,
    search_response self track_name limit = Ok track_data /\
    dict_get track_data "tracks" (JObj ∅) = Ok found /\
    dict_get found "items" (JArr []) = Ok items /\
    slice10 items = Ok first10 /\
    search_loop [] 1 first10 = Ok rows.
Proof.
  unfold search_track. intros Hrun. bind_inv Hrun. do 4 eexists.
  repeat split; eassumption.
Qed.

(** X4: whatever the provider answers, a search that returns gives at most
    ten rows; every row has five entries, the first being its position
    counted from one, the last being the identifier [trackinfo] reads. *)
Theorem search_track_at_most_ten (self : Spotify) (track_name : string)
    (limit : json) (rows : list (list json)) :
  search_track self track_name limit = Ok rows ->
  (length rows <= 10)%nat /\
  forall (k : nat) (row : list json), rows !! k = Some row ->
    length row = 5%nat /\
    row !! 0%nat = Some (JInt (Z.of_nat k + 1)) /\
    is_Some (row !! 4%nat).
Proof.
  intros Hrun.
  apply search_track_Ok_inv in Hrun
    as (track_data & found & items & first10 & _ & _ & _ & Hslice & Hloop).
  apply slice10_length in Hslice.
  apply search_loop_Ok_inv in Hloop as (rows' & Hrows & Hlen & Hrow).
  simpl in Hrows. subst rows'. split; [lia|].
  intros k row Hk.
  destruct (lookup_lt_is_Some_2 first10 k) as [item Hitem].
  { rewrite <- Hlen. now apply lookup_lt_is_Some_1. }
  destruct (Hrow k item Hitem) as (row' & Hk' & Htrack).
  assert (row' = row) as -> by congruence.
  apply track_row_Ok_inv in Htrack
    as (name & artist & album & trackid & _ & _ & _ & _ & ->).
  repeat split; [|eexists; reflexivity].
  simpl. do 2 f_equal. lia.
Qed.

(** X5: for a response with a list of items, the search returns exactly
    when each of the first ten items is a track item: one item without a
    name, a first artist, an album name or an identifier makes the whole
    search fail, with no partial result. *)
Theorem search_track_returns_iff (self : Spotify) (track_name : string)
    (limit : json) (body found : gmap string json) (items : list json) :
  search_response self track_name limit = Ok (JObj body) ->
  body !! "tracks" = Some (JObj found) ->
  found !! "items" = Some (JArr items) ->
  (is_ok (search_track self track_name limit) <->
   Forall is_track_item (take 10 items)).
Proof.
  intros Hresp Htracks Hitems.
  assert (Hrun : search_track self track_name limit = search_loop [] 1 (take 10 items)).
  { unfold search_track. rewrite Hresp. simpl. rewrite Htracks. simpl.
    rewrite Hitems. reflexivity. }
  rewrite Hrun. split.
  - intros [rows Hloop].
    apply search_loop_Ok_inv in Hloop as (rows' & _ & _ & Hrow).
    apply Forall_lookup. intros k item Hk.
    destruct (Hrow k item Hk) as (row & _ & Htrack).
    apply track_row_Ok_inv in Htrack
      as (name & artist & album & trackid & Hn & Ha & Hal & Hid & _).
    repeat split; eexists; eassumption.
  - intros Hall.
    destruct (search_loop_rows _ Hall [] 1) as (rows & Hloop & _).
    exists rows. exact Hloop.
Qed.

(** X6: a body whose [tracks] entry is there but is not an object (null,
    say) is not covered by the default of [get]: the search fails with
    [AttributeError]; so does a body that is not an object itself. An
    [items] entry that can be neither sliced as a list nor as a string
    fails with [TypeError]. *)
Theorem search_track_malformed_body (self : Spotify) (track_name : string)
    (limit : json) (track_data : json) :
  search_response self track_name limit = Ok track_data ->
  ((forall body, track_data <> JObj body) ->
     search_track self track_name limit = Raise AttributeError) /\
  (forall body tracks,
     track_data = JObj body -> body !! "tracks" = Some tracks ->
     (forall found, tracks <> JObj found) ->
     search_track self track_name limit = Raise AttributeError) /\
  (forall body found items,
     track_data = JObj body -> body !! "tracks" = Some (JObj found) ->
     found !! "items" = Some items ->
     (forall l, items <> JArr l) -> (forall s, items <> JStr s) ->
     search_track self track_name limit = Raise TypeError).
Proof.
  intros Hresp. unfold search_track. rewrite Hresp. cbn [bind].
  split; [|split].
  - intros Hno. destruct track_data; try reflexivity. now destruct (Hno o).
  - intros body tracks -> Htracks Hno. simpl. rewrite Htracks.
    destruct tracks; try reflexivity. now destruct (Hno o).
  - intros body found items -> Htracks Hitems Hl Hs. simpl. rewrite Htracks.
    simpl. rewrite Hitems.
    destruct items; try reflexivity; [now destruct (Hs s) | now destruct (Hl l)].
Qed.

(** X7: a row the search returned carries at index 4 the identifier of
    its item, so handing it to [trackinfo] is the lookup of that
    identifier: position, name, artist and album of the row play no
    part. *)
Theorem search_row_then_trackinfo (self : Spotify) (track_name : string)
    (limit : json) (body found : gmap string json) (items : list json)
    (rows : list (list json)) (k : nat) (row : list json) :
  search_response self track_name limit = Ok (JObj body) ->
  body !! "tracks" = Some (JObj found) ->
  found !! "items" = Some (JArr items) ->
  search_track self track_name limit = Ok rows ->
  rows !! k = Some row ->
  exists item trackid,
    items !! k = Some item /\
    getitem item "id" = Ok trackid /\
    row !! 4%nat = Some trackid /\
    trackinfo self row = trackinfo self [JNull; JNull; JNull; JNull; trackid].
Proof.
  intros Hresp Htracks Hitems Hrun Hk.
  assert (Hloop : search_loop [] 1 (take 10 items) = Ok rows).
  { rewrite <- Hrun. unfold search_track. rewrite Hresp. simpl. rewrite Htracks.
    simpl. rewrite Hitems. reflexivity. }
  apply search_loop_Ok_inv in Hloop as (rows' & Hrows & Hlen & Hrow).
  simpl in Hrows. subst rows'.
  destruct (lookup_lt_is_Some_2 (take 10 items) k) as [item Hitem].
  { rewrite <- Hlen. apply lookup_lt_is_Some_1. eauto. }
  destruct (Hrow k item Hitem) as (row' & Hk' & Htrack).
  assert (row' = row) as -> by congruence.
  apply track_row_Ok_inv in Htrack
    as (name & artist & album & trackid & _ & _ & _ & Hid & ->).
  exists item, trackid. apply lookup_take_Some in Hitem as [Hitem _].
  repeat split; auto.
Qed.
End ClientMore.

(** X8: items after the tenth are never read: two responses whose first
    ten items agree give the same search result, whatever follows. *)
Theorem search_track_reads_first_ten (R1 R2 : Requests) (self : Spotify)
    (track_name : string) (limit : json) (body1 found1 body2 found2 : gmap string json)
    (items1 items2 : list json) :
  @search_response R1 self track_name limit = Ok (JObj body1) ->
  body1 !! "tracks" = Some (JObj found1) ->
  found1 !! "items" = Some (JArr items1) ->
  @search_response R2 self track_name limit = Ok (JObj body2) ->
  body2 !! "tracks" = Some (JObj found2) ->
  found2 !! "items" = Some (JArr items2) ->
  take 10 items1 = take 10 items2 ->
  @search_track R1 self track_name limit = @search_track R2 self track_name limit.
Proof.
  intros Hresp1 Htracks1 Hitems1 Hresp2 Htracks2 Hitems2 Hsame.
  unfold search_track. rewrite Hresp1, Hresp2. simpl.
  rewrite Htracks1, Htracks2. simpl. rewrite Hitems1, Hitems2. simpl.
  now rewrite Hsame.
Qed.
(** ** Track lookup: the record and its failures *)

Lemma two_digits_read_back `{Unicode} (q : Z) :
  0 <= q < 100 ->
  has_shape [SDigit; SDigit] (two_digits q) = true /\ py_int (two_digits q) = q.
Proof.
  intros Hq.
  assert (Hok : has_shape [SDigit; SDigit] (two_digits q)
                && (py_int (two_digits q) =? q) = true).
  { apply (bounded_check
             (fun q => has_shape [SDigit; SDigit] (two_digits q)
                       && (py_int (two_digits q) =? q)) 0 100);
      [vm_compute; reflexivity | lia]. }
  apply andb_prop in Hok as [Hshape Hint]. split; [exact Hshape | now apply Z.eqb_eq].
Qed.

Lemma whole_seconds (n : Z) :
  0 <= n / 1000 mod 60 < 60 /\ 60 * (n / 60000) + n / 1000 mod 60 = n / 1000.
Proof.
  split; [apply Z.mod_pos_bound; lia|].
  replace (n / 60000) with (n / 1000 / 60) by (rewrite Z.div_div by lia; reflexivity).
  pose proof (Z.div_mod (n / 1000) 60). lia.
Qed.

Section TrackMore.
Context `{Unicode} `{Builtins} `{Requests}.

(** X9: a returned record has exactly the nine entries [album_id], [name],
    [artist], [year], [duration], [image], [label], [track_id] and
    [cover]. *)
Theorem trackinfo_record_keys (self : Spotify) (track : list json)
    (info : gmap string json) :
  trackinfo self track = Ok info ->
  dom info = {[ "album_id"; "name"; "artist"; "year"; "duration"; "image";
                "label"; "track_id"; "cover" ]}.
Proof.
  intros Hrun. apply trackinfo_Ok_iff in Hrun.
  destruct Hrun as (trackid & t_data & album_id & a_data & album_label & date
                    & precision & release_date & name & artist & duration
                    & image & track_id & _ & ->).
  unfold info_of. rewrite !dom_insert_L, dom_singleton_L.
  apply set_eq. intros k. set_unfold. tauto.
Qed.

(** X10: the entries [album_id], [name], [artist], [image] and [track_id]
    of a returned record are the album identifier, the name, the first
    artist's name, the first image's URL and the identifier of the track
    response, as decoded. *)
Theorem trackinfo_copies_fields (self : Spotify) (track : list json)
    (trackid t_data : json) (info : gmap string json) :
  track !! 4%nat = Some trackid ->
  track_response self trackid = Ok t_data ->
  trackinfo self track = Ok info ->
  exists album_id name artist image track_id,
    getitem2 t_data "album" "id" = Ok album_id /\
    info !! "album_id" = Some album_id /\
    getitem t_data "name" = Ok name /\
    info !! "name" = Some name /\
    getitem_first t_data "artists" "name" = Ok artist /\
    info !! "artist" = Some artist /\
    (let! album := getitem t_data "album" in getitem_first album "images" "url")
      = Ok image /\
    info !! "image" = Some image /\
    getitem t_data "id" = Ok track_id /\
    info !! "track_id" = Some track_id.
Proof.
  intros Hid Hresp Hrun. apply trackinfo_Ok_iff in Hrun.
  destruct Hrun as (trackid' & t_data' & album_id & a_data & album_label & date
                    & precision & release_date & name & artist & duration
                    & image & track_id
                    & [Sid Sresp Salbum Saresp Slabel Sdate Sprec Srel Sname Sartist
                         Sdur Simg Stid] & ->).
  assert (trackid' = trackid) as -> by congruence.
  assert (t_data' = t_data) as -> by congruence.
  exists album_id, name, artist, image, track_id.
  repeat split; assumption.
Qed.

(** X11: whatever the precision was, the [label] entry of a returned
    record is the release date as parsed with the format of the
    precision and printed as month name, day on two digits, comma and
    year, then a newline, then the label of the album response. What is
    printed is a day of the calendar, and it has the shape
    [Month DD, YYYY] when its year is 1000 or later. *)
Theorem trackinfo_label_shape (self : Spotify) (track : list json)
    (trackid t_data album_id a_data : json) (info : gmap string json) :
  track !! 4%nat = Some trackid ->
  track_response self trackid = Ok t_data ->
  getitem2 t_data "album" "id" = Ok album_id ->
  album_response self album_id = Ok a_data ->
  trackinfo self track = Ok info ->
  exists date precision date_format parsed album_label,
    getitem2 t_data "album" "release_date" = Ok date /\
    getitem2 t_data "album" "release_date_precision" = Ok precision /\
    date_format_of precision = Ok date_format /\
    strptime date date_format = Ok parsed /\
    getitem a_data "label" = Ok album_label /\
    info !! "label" =
      Some (JStr (strftime parsed "%B %d, %Y" +:+ newline +:+ py_str album_label)) /\
    valid_date (year parsed) (month parsed) (day parsed) = true /\
    strftime parsed "%B %d, %Y" =
      month_name (month parsed) +:+ " " +:+ zfill 2 (dec (day parsed)) +:+ ", "
        +:+ dec (year parsed) /\
    (1000 <= year parsed -> is_Month_DD_YYYY (strftime parsed "%B %d, %Y") = true).
Proof.
  intros Hid Hresp Halbum Haresp Hrun. apply trackinfo_Ok_iff in Hrun.
  destruct Hrun as (trackid' & t_data' & album_id' & a_data' & album_label & date
                    & precision & release_date & name & artist & duration
                    & image & track_id
                    & [Sid Sresp Salbum Saresp Slabel Sdate Sprec Srel Sname Sartist
                         Sdur Simg Stid] & ->).
  assert (trackid' = trackid) as -> by congruence.
  assert (t_data' = t_data) as -> by congruence.
  assert (album_id' = album_id) as -> by congruence.
  assert (a_data' = a_data) as -> by congruence.
  apply format_release_date_Ok_inv in Srel
    as (date_format & parsed & Hfmt & Hparse & ->).
  pose proof (strptime_valid _ _ _ Hparse) as Hvalid.
  exists date, precision, date_format, parsed, album_label.
  repeat (split; [assumption|]).
  split; [reflexivity|]. split; [exact Hvalid|].
  split; [apply strftime_B_d_Y|].
  intros Hlong. now apply strftime_is_Month_DD_YYYY.
Qed.

(** X12: failures come out as they arise: a row with no index 4 is an
    [IndexError] before any request; an exception of the track request,
    and then of the album request, is the exception of [trackinfo]. *)
Theorem trackinfo_propagates_failures (self : Spotify) (track : list json) :
  (track !! 4%nat = None -> trackinfo self track = Raise IndexError) /\
  (forall trackid e,
     track !! 4%nat = Some trackid ->
     track_response self trackid = Raise e ->
     trackinfo self track = Raise e) /\
  (forall trackid t_data album_id e,
     track !! 4%nat = Some trackid ->
     track_response self trackid = Ok t_data ->
     getitem2 t_data "album" "id" = Ok album_id ->
     album_response self album_id = Raise e ->
     trackinfo self track = Raise e).
Proof.
  unfold trackinfo, list_getitem. split; [|split].
  - intros ->. reflexivity.
  - intros trackid e -> Hresp. cbn [bind]. rewrite Hresp. reflexivity.
  - intros trackid t_data album_id e -> Hresp Halbum Haresp. cbn [bind].
    rewrite Hresp. cbn [bind]. rewrite Halbum. cbn [bind]. rewrite Haresp.
    reflexivity.
Qed.

(** X13: a track whose album has an empty list of images cannot be looked
    up: when everything before the [image] entry is in order, [trackinfo]
    fails with [IndexError]. *)
Theorem trackinfo_no_image (self : Spotify) (track : list json)
    (trackid t_data album_id a_data album_label date precision name artist : json)
    (release_date duration : string) :
  track !! 4%nat = Some trackid ->
  track_response self trackid = Ok t_data ->
  getitem2 t_data "album" "id" = Ok album_id ->
  album_response self album_id = Ok a_data ->
  getitem a_data "label" = Ok album_label ->
  getitem2 t_data "album" "release_date" = Ok date ->
  getitem2 t_data "album" "release_date_precision" = Ok precision ->
  format_release_date date precision = Ok release_date ->
  getitem t_data "name" = Ok name ->
  getitem_first t_data "artists" "name" = Ok artist ->
  format_duration t_data = Ok duration ->
  getitem2 t_data "album" "images" = Ok (JArr []) ->
  trackinfo self track = Raise IndexError.
Proof.
  intros Hid Hresp Halbum Haresp Hlabel Hdate Hprec Hrel Hname Hartist Hdur Himg.
  unfold trackinfo. rewrite (proj2 (list_getitem_Ok _ _ _) Hid). cbn [bind].
  rewrite Hresp. cbn [bind]. rewrite Halbum. cbn [bind]. rewrite Haresp. cbn [bind].
  rewrite Hlabel. cbn [bind]. rewrite Hdate. cbn [bind]. rewrite Hprec. cbn [bind].
  rewrite Hrel. cbn [bind]. rewrite Hname. cbn [bind]. rewrite Hartist. cbn [bind].
  rewrite Hdur. cbn [bind].
  unfold getitem2 in Himg. apply bind_Ok in Himg as (album & Ha & Hi).
  rewrite Ha. cbn [bind]. unfold getitem_first. rewrite Hi. reflexivity.
Qed.

(** X14: a duration that is not an integer gives no record: a float is
    refused by the [02d] format ([ValueError]), a string, null, list or
    dict by the division ([TypeError]). *)
Theorem trackinfo_duration_not_int (self : Spotify) (track : list json)
    (trackid t_data v : json) :
  track !! 4%nat = Some trackid ->
  track_response self trackid = Ok t_data ->
  getitem t_data "duration_ms" = Ok v ->
  (forall n, v <> JInt n) -> (forall b, v <> JBool b) ->
  format_duration t_data =
    Raise (match v with JFloat _ _ => ValueError | _ => TypeError end) /\
  forall info, trackinfo self track <> Ok info.
Proof.
  intros Hid Hresp Hv Hint Hbool.
  assert (Hdur : format_duration t_data =
                 Raise (match v with JFloat _ _ => ValueError | _ => TypeError end)).
  { unfold format_duration. rewrite Hv. cbn [bind].
    destruct v; try reflexivity; [now destruct (Hbool b) | now destruct (Hint n)]. }
  split; [exact Hdur|].
  intros info Hrun. apply trackinfo_Ok_iff in Hrun.
  destruct Hrun as (trackid' & t_data' & album_id & a_data & album_label & date
                    & precision & release_date & name & artist & duration
                    & image & track_id
                    & [Sid Sresp Salbum Saresp Slabel Sdate Sprec Srel Sname Sartist
                         Sdur Simg Stid] & ->).
  assert (trackid' = trackid) as -> by congruence.
  assert (t_data' = t_data) as -> by congruence.
  congruence.
Qed.

(** X15: for a track shorter than a hundred minutes the [duration] entry
    is two digits, a colon and two digits; read back as numbers, the
    seconds are below sixty and sixty times the minutes plus the seconds
    are the whole seconds of [duration_ms]. *)
Theorem trackinfo_duration_reads_back (self : Spotify) (track : list json)
    (trackid t_data : json) (n : Z) (info : gmap string json) :
  track !! 4%nat = Some trackid ->
  track_response self trackid = Ok t_data ->
  getitem t_data "duration_ms" = Ok (JInt n) ->
  0 <= n < 6000000 ->
  trackinfo self track = Ok info ->
  exists mm ss,
    info !! "duration" = Some (JStr (mm +:+ ":" +:+ ss)) /\
    has_shape [SDigit; SDigit] mm = true /\
    has_shape [SDigit; SDigit] ss = true /\
    0 <= py_int ss < 60 /\
    60 * py_int mm + py_int ss = n / 1000.
Proof.
  intros Hid Hresp Hms Hn Hrun. apply trackinfo_Ok_iff in Hrun.
  destruct Hrun as (trackid' & t_data' & album_id & a_data & album_label & date
                    & precision & release_date & name & artist & duration
                    & image & track_id
                    & [Sid Sresp Salbum Saresp Slabel Sdate Sprec Srel Sname Sartist
                         Sdur Simg Stid] & ->).
  assert (trackid' = trackid) as -> by congruence.
  assert (t_data' = t_data) as -> by congruence.
  rewrite (format_duration_int _ _ Hms) in Sdur.
  injection Sdur as <-.
  destruct (whole_seconds n) as [Hss Hsum].
  assert (Hmm : 0 <= n / 60000 < 100).
  { split; [apply Z.div_pos; lia | apply Z.div_lt_upper_bound; lia]. }
  destruct (two_digits_read_back (n / 60000) Hmm) as [Hshape_mm Hint_mm].
  destruct (two_digits_read_back (n / 1000 mod 60)) as [Hshape_ss Hint_ss]; [lia|].
  exists (two_digits (n / 60000)), (two_digits (n / 1000 mod 60)).
  rewrite Hint_mm, Hint_ss. repeat split; try assumption; lia.
Qed.
End TrackMore.

(** X16: of the album response only the label is read: against two
    providers that answer the track request alike and whose album
    responses carry the same label, [trackinfo] gives the same outcome. *)
Theorem trackinfo_reads_album_label_only (U : Unicode) (B : Builtins)
    (R1 R2 : Requests) (self : Spotify) (track : list json) (trackid t_data album_id a_data1 a_data2 : json) :
  track !! 4%nat = Some trackid ->
  @track_response B R1 self trackid = Ok t_data ->
  @track_response B R2 self trackid = Ok t_data ->
  getitem2 t_data "album" "id" = Ok album_id ->
  @album_response B R1 self album_id = Ok a_data1 ->
  @album_response B R2 self album_id = Ok a_data2 ->
  getitem a_data1 "label" = getitem a_data2 "label" ->
  @trackinfo U B R1 self track = @trackinfo U B R2 self track.
Proof.
  intros Hid Hresp1 Hresp2 Halbum Ha1 Ha2 Hlabel.
  unfold trackinfo. rewrite (proj2 (list_getitem_Ok _ _ _) Hid). cbn [bind].
  rewrite Hresp1, Hresp2. cbn [bind]. rewrite Halbum. cbn [bind].
  rewrite Ha1, Ha2. cbn [bind]. rewrite Hlabel. reflexivity.
Qed.

(** ** The release date: types and impossible dates *)

(** X17: the release date is formatted only from text and a hashable
    precision: a list or dict as precision, and otherwise a release date
    that is not a string, end in [TypeError]. *)
Theorem format_release_date_type_errors `{Unicode} (date precision : json) :
  (hashable precision = false ->
     format_release_date date precision = Raise TypeError) /\
  (hashable precision = true -> (forall s, date <> JStr s) ->
     format_release_date date precision = Raise TypeError).
Proof.
  unfold format_release_date. split.
  - destruct precision; try discriminate; reflexivity.
  - intros Hh Hdate.
    assert (Hfmt : exists f, date_format_of precision = Ok f)
      by (destruct precision; try discriminate; eexists; reflexivity).
    destruct Hfmt as [f ->]. cbn [bind].
    destruct date; try reflexivity. now destruct (Hdate s).
Qed.

Lemma year_digits_from_zero `{Unicode} (y : Z) :
  0 <= y <= 9999 ->
  exists a b c d,
    year_text y = String a (String b (String c (String d EmptyString))) /\
    is_digit a = true /\ is_digit b = true /\ is_digit c = true /\ is_digit d = true /\
    py_int (String a (String b (String c (String d EmptyString)))) = y.
Proof.
  intros Hy. destruct (Z.eq_dec y 0) as [-> | Hne].
  - exists "0"%char, "0"%char, "0"%char, "0"%char. repeat split.
  - apply year_digits. lia.
Qed.

Lemma strptime_after_year_invalid `{Unicode} (format : string) (r : regex)
    (a b c d : ascii)
    (rest : string) (y m dd : Z) :
  TimeRE_pattern format = Ok (RSeq Y_group r) ->
  is_digit a = true -> is_digit b = true -> is_digit c = true -> is_digit d = true ->
  py_int (String a (String b (String c (String d EmptyString)))) = y ->
  after_year r rest m dd = true ->
  valid_date y m dd = false ->
  strptime (JStr (String a (String b (String c (String d rest))))) format
    = Raise ValueError.
Proof.
  intros Hfmt Ha Hb Hc Hd Hy Hafter Hvalid.
  destruct (rmatch_Y_group a b c d rest Ha Hb Hc Hd) as (g & Hg & HgY & Hgm & Hgd).
  unfold strptime. rewrite Hfmt. cbn [bind rmatch]. rewrite Hg.
  cbn [flat_map app]. unfold after_year in Hafter.
  destruct (rmatch r rest) as [|[[g2 m2] rest2] others]; [discriminate|].
  destruct rest2; [|discriminate].
  apply andb_prop in Hafter as [Hm Hdd]. apply Z.eqb_eq in Hm, Hdd.
  cbn [map app].
  assert (HY : group_int (g ∪ g2) "Y" 1900 = y).
  { unfold group_int. rewrite (lookup_union_Some_l g g2 _ _ HgY). exact Hy. }
  assert (HM : group_int (g ∪ g2) "m" 1 = m).
  { unfold group_int in *. rewrite lookup_union_r by exact Hgm. exact Hm. }
  assert (HD : group_int (g ∪ g2) "d" 1 = dd).
  { unfold group_int in *. rewrite lookup_union_r by exact Hgd. exact Hdd. }
  rewrite HY, HM, HD, Hvalid. reflexivity.
Qed.

(** X18: a well-written date that is not a day of the calendar (the 30th
    of February, the 29th outside a leap year, the 31st of a short month,
    anything in year 0000) is refused with [ValueError]. *)
Theorem format_release_date_no_such_day `{Unicode} (y m d : Z) :
  0 <= y <= 9999 -> 1 <= m <= 12 -> 1 <= d <= 31 ->
  valid_date y m d = false ->
  format_release_date (JStr (day_text y m d)) (JStr "day") = Raise ValueError.
Proof.
  intros Hy Hm Hd Hv.
  destruct (year_digits_from_zero y Hy)
    as (a & b & c & d0 & Htext & Ha & Hb & Hc & Hd0 & Hint).
  assert (Hparse : strptime (JStr (day_text y m d)) "%Y-%m-%d" = Raise ValueError).
  { unfold day_text, month_text. rewrite Htext, !append_assoc.
    apply (strptime_after_year_invalid _ day_tail a b c d0 _ y m d);
      try assumption; try reflexivity.
    now apply day_tail_matches. }
  unfold format_release_date.
  change (date_format_of (JStr "day")) with (Ok (A := string) "%Y-%m-%d").
  cbn [bind]. rewrite Hparse. reflexivity.
Qed.

(** * The client run against the demo provider *)

Example strptime_day :
  @strptime demo_unicode (JStr "2021-05-10") "%Y-%m-%d" = Ok (mkdate 2021 5 10).
Proof. reflexivity. Qed.

Example strptime_month : @strptime demo_unicode (JStr "2021-12") "%Y-%m" = Ok (mkdate 2021 12 1).
Proof. reflexivity. Qed.

Example strptime_month_13 : @strptime demo_unicode (JStr "2021-13") "%Y-%m" = Raise ValueError.
Proof. reflexivity. Qed.

Example strptime_no_such_day : @strptime demo_unicode (JStr "2021-02-29") "%Y-%m-%d" = Raise ValueError.
Proof. reflexivity. Qed.

Example strptime_empty : @strptime demo_unicode (JStr EmptyString) EmptyString = Ok (mkdate 1900 1 1).
Proof. reflexivity. Qed.

(** Digits of another script are digits to [strptime]: the year comes
    back as a number and is printed in ASCII. *)
Example strptime_fullwidth_year :
  @strptime demo_unicode (JStr fullwidth_2021) "%Y" = Ok (mkdate 2021 1 1)
  /\ @format_release_date demo_unicode (JStr fullwidth_2021) (JStr "year")
     = Ok "January 01, 2021".
Proof. split; reflexivity. Qed.

(** A database without those digits refuses the same text. *)
Example strptime_fullwidth_unknown :
  @strptime {| decimal := fun _ => None |} (JStr fullwidth_2021) "%Y"
  = Raise ValueError.
Proof. reflexivity. Qed.

(** A year below 1000 is printed without the zeros it was written with,
    and so not in the shape [Month DD, YYYY]. *)
Example strftime_short_year :
  strftime (mkdate 987 1 1) "%B %d, %Y" = "January 01, 987"
  /\ is_Month_DD_YYYY "January 01, 987" = false
  /\ @format_release_date demo_unicode (JStr "0001-01-01") (JStr "day")
     = Ok "January 01, 1".
Proof. repeat split; reflexivity. Qed.

Example format_02d_negative : format_02d_int (-5) = "-5" /\ format_02d_int 7 = "07".
Proof. split; reflexivity. Qed.

Example demo_trackinfo_day :
  demo_trackinfo (JStr "2021-05-10") (JStr "day") (JInt 185000) (demo_row 1 "a" "b" "c")
  = Ok (demo_info (JStr "2021-05-10") "03:05" "May 10, 2021").
Proof. reflexivity. Qed.

Lemma authorization_header_stores_bearer_witness :
  AUTH_HEADER (demo_authorize (JObj {[ "access_token" := JStr "BQDf3" ]})).2
  = Some {[ "Authorization" := "Bearer BQDf3" ]}.
Proof.
  apply (@authorization_header_stores_bearer demo_builtins
           (demo_requests (JObj {[ "access_token" := JStr "BQDf3" ]}) JNull JNull)
           (mkSpotify "id" "secret" "https://api.spotify.com/v1" None)
           {[ "access_token" := JStr "BQDf3" ]} (JStr "BQDf3"));
    reflexivity.
Defined.

Lemma authorization_header_missing_token_witness :
  (demo_authorize (JObj {[ "error" := JStr "invalid_client" ]})).1 = Raise KeyError
  /\ AUTH_HEADER (demo_authorize (JObj {[ "error" := JStr "invalid_client" ]})).2 = None.
Proof.
  destruct (@authorization_header_missing_token demo_builtins
              (demo_requests (JObj {[ "error" := JStr "invalid_client" ]}) JNull JNull)
              (mkSpotify "id" "secret" "https://api.spotify.com/v1" None)
              {[ "error" := JStr "invalid_client" ]})
    as (Hraise & _ & Hheader); [reflexivity | reflexivity |].
  split; [exact Hraise | exact Hheader].
Defined.

Lemma search_track_missing_keys_witness :
  demo_search (JObj {[ "tracks" := JObj {[ "total" := JInt 0 ]} ]}) (JInt 5) = Ok []
  /\ demo_search (JObj {[ "error" := JStr "no result" ]}) (JInt 5) = Ok [].
Proof.
  split.
  - apply (@search_track_missing_keys
             (demo_requests JNull (JObj {[ "tracks" := JObj {[ "total" := JInt 0 ]} ]}) JNull)
             demo_client "feeling" (JInt 5)
             {[ "tracks" := JObj {[ "total" := JInt 0 ]} ]}); [reflexivity|].
    right. exists {[ "total" := JInt 0 ]}. split; reflexivity.
  - apply (@search_track_missing_keys
             (demo_requests JNull (JObj {[ "error" := JStr "no result" ]}) JNull)
             demo_client "feeling" (JInt 5)
             {[ "error" := JStr "no result" ]}); [reflexivity|].
    left. reflexivity.
Defined.

Lemma search_track_rows_witness :
  exists rows,
    demo_search (demo_search_body demo_items) (JInt 50) = Ok rows /\
    length rows = 10%nat /\
    rows !! 2%nat = Some [JInt 3; JStr "track c"; JStr "artist c"; JStr "album c";
                          JStr "id-c"] /\
    rows !! 10%nat = None.
Proof.
  destruct (@search_track_rows
              (demo_requests JNull (demo_search_body demo_items) JNull)
              demo_client "feeling" (JInt 50)
              {[ "tracks" := JObj {[ "items" := JArr demo_items ]} ]}
              {[ "items" := JArr demo_items ]} demo_items)
    as (rows & Hrun & Hlen & Hrows & _).
  - reflexivity.
  - reflexivity.
  - reflexivity.
  - repeat constructor; eexists; reflexivity.
  - exists rows. split; [exact Hrun|]. split; [exact Hlen|]. split.
    + destruct (Hrows 2%nat) as (item & name & artist & album & trackid & Hitem
                                 & Hn & Ha & Hal & Hid & Hrow).
      { rewrite Hlen. simpl. lia. }
      injection Hitem as <-. injection Hn as <-. injection Ha as <-.
      injection Hal as <-. injection Hid as <-. exact Hrow.
    + apply lookup_ge_None. rewrite Hlen. simpl. lia.
Defined.

Lemma trackinfo_reads_identifier_only_witness :
  demo_trackinfo (JStr "2021-05-10") (JStr "day") (JInt 185000) (demo_row 1 "a" "b" "c")
  = demo_trackinfo (JStr "2021-05-10") (JStr "day") (JInt 185000) demo_row'.
Proof.
  apply (@trackinfo_reads_identifier_only demo_unicode demo_builtins
           (demo_requests JNull JNull
              (demo_track (JStr "2021-05-10") (JStr "day") (JInt 185000)))
           demo_client (demo_row 1 "a" "b" "c") demo_row').
  reflexivity.
Defined.

Lemma trackinfo_cover_is_fixed_witness :
  demo_info (JStr "2021-05-10") "03:05" "May 10, 2021" !! "cover"
  = Some (JStr "./assets/spotify_banner.jpg").
Proof.
  apply (@trackinfo_cover_is_fixed demo_unicode demo_builtins
           (demo_requests JNull JNull
              (demo_track (JStr "2021-05-10") (JStr "day") (JInt 185000)))
           demo_client (demo_row 1 "a" "b" "c")).
  reflexivity.
Defined.

Lemma trackinfo_year_is_release_date_witness :
  demo_info (JStr "2021-05-10") "03:05" "May 10, 2021" !! "year"
  = Some (JStr "2021-05-10").
Proof.
  apply (@trackinfo_year_is_release_date demo_unicode demo_builtins
           (demo_requests JNull JNull
              (demo_track (JStr "2021-05-10") (JStr "day") (JInt 185000)))
           demo_client (demo_row 1 "a" "b" "c")
           (JStr "11dFghVXANMlKmJXsNCbNl")
           (demo_track (JStr "2021-05-10") (JStr "day") (JInt 185000)));
    reflexivity.
Defined.

Lemma trackinfo_duration_witness :
  demo_info (JStr "2021-05-10") "03:05" "May 10, 2021" !! "duration"
  = Some (JStr "03:05")
  /\ demo_info (JStr "2021") "00:59" "January 01, 2021" !! "duration"
     = Some (JStr "00:59").
Proof.
  split.
  - apply (@trackinfo_duration demo_unicode demo_builtins
             (demo_requests JNull JNull
                (demo_track (JStr "2021-05-10") (JStr "day") (JInt 185000)))
             demo_client (demo_row 1 "a" "b" "c")
             (JStr "11dFghVXANMlKmJXsNCbNl")
             (demo_track (JStr "2021-05-10") (JStr "day") (JInt 185000)) 185000);
      reflexivity.
  - apply (@trackinfo_duration demo_unicode demo_builtins
             (demo_requests JNull JNull
                (demo_track (JStr "2021") (JStr "year") (JInt 59000)))
             demo_client (demo_row 1 "a" "b" "c")
             (JStr "11dFghVXANMlKmJXsNCbNl")
             (demo_track (JStr "2021") (JStr "year") (JInt 59000)) 59000);
      reflexivity.
Defined.

Lemma trackinfo_release_date_shape_witness :
  exists parsed,
    @strptime demo_unicode (JStr "2021-05-10") "%Y-%m-%d" = Ok parsed /\
    demo_info (JStr "2021-05-10") "03:05" "May 10, 2021" !! "label"
      = Some (JStr (strftime parsed "%B %d, %Y" +:+ newline +:+ "Interscope")) /\
    is_Month_DD_YYYY (strftime parsed "%B %d, %Y") = true /\
    strftime parsed "%B %d, %Y" = "May 10, 2021".
Proof.
  destruct (@trackinfo_release_date_shape demo_unicode demo_builtins
              (demo_requests JNull JNull
                 (demo_track (JStr "2021-05-10") (JStr "day") (JInt 185000)))
              demo_client (demo_row 1 "a" "b" "c")
              (JStr "11dFghVXANMlKmJXsNCbNl")
              (demo_track (JStr "2021-05-10") (JStr "day") (JInt 185000))
              (JStr "4aawyAB9vmqN3uQ7FjRGTy") demo_album_data
              (JStr "2021-05-10") "day"
              (demo_info (JStr "2021-05-10") "03:05" "May 10, 2021"))
    as (date_format & parsed & album_label & Hfmt & Hparse & Hlabel & Hinfo
        & Hvalid & Htext & Hshape & _ & _ & Hexample).
  - reflexivity.
  - reflexivity.
  - reflexivity.
  - reflexivity.
  - reflexivity.
  - reflexivity.
  - left. reflexivity.
  - reflexivity.
  - injection Hfmt as <-. injection Hlabel as <-.
    exists parsed. split; [exact Hparse|]. split; [exact Hinfo|].
    split; [|apply Hexample; reflexivity].
    apply Hshape.
    assert (Hyear : year parsed = 2021)
      by (vm_compute in Hparse; injection Hparse as <-; reflexivity).
    rewrite Hyear. lia.
Defined.

(** C1 as the specification words it fails: a release date known to the
    month is printed with a day, and one known to the year with a month
    and a day, so neither has the promised shape. *)
Lemma trackinfo_release_date_counterexample :
  (demo_trackinfo (JStr "2021-05") (JStr "month") (JInt 185000) (demo_row 1 "a" "b" "c")
     = Ok (demo_info (JStr "2021-05") "03:05" "May 01, 2021") /\
   demo_info (JStr "2021-05") "03:05" "May 01, 2021" !! "label"
     = Some (JStr ("May 01, 2021" +:+ newline +:+ "Interscope")) /\
   promised_pattern "month" "May 01, 2021" = false)
  /\
  (demo_trackinfo (JStr "2021") (JStr "year") (JInt 185000) (demo_row 1 "a" "b" "c")
     = Ok (demo_info (JStr "2021") "03:05" "January 01, 2021") /\
   demo_info (JStr "2021") "03:05" "January 01, 2021" !! "label"
     = Some (JStr ("January 01, 2021" +:+ newline +:+ "Interscope")) /\
   promised_pattern "year" "January 01, 2021" = false).
Proof. repeat split; reflexivity. Qed.

Lemma trackinfo_unknown_precision_fails_witness :
  demo_trackinfo (JStr "1999") (JStr "decade") (JInt 185000) (demo_row 1 "a" "b" "c")
  = Raise ValueError.
Proof.
  refine (proj2 (@trackinfo_unknown_precision_fails demo_unicode demo_builtins
              (demo_requests JNull JNull
                 (demo_track (JStr "1999") (JStr "decade") (JInt 185000)))
              demo_client (demo_row 1 "a" "b" "c")
              (JStr "11dFghVXANMlKmJXsNCbNl")
              (demo_track (JStr "1999") (JStr "decade") (JInt 185000))
              (JStr "1999") (JStr "decade") _ _ _ _ _ _ _ _)
            (JStr "4aawyAB9vmqN3uQ7FjRGTy") demo_album_data (JStr "Interscope")
            "1999" _ _ _ _ _);
    try reflexivity; discriminate.
Defined.

(** C3 as the specification words it fails: with an unknown precision and
    an empty release date the parse succeeds, and the record returned is
    dated January 01, 1900. *)
Lemma trackinfo_unknown_precision_counterexample :
  demo_trackinfo (JStr EmptyString) (JStr "decade") (JInt 185000) (demo_row 1 "a" "b" "c")
    = Ok (demo_info (JStr EmptyString) "03:05" "January 01, 1900") /\
  demo_info (JStr EmptyString) "03:05" "January 01, 1900" !! "label"
    = Some (JStr ("January 01, 1900" +:+ newline +:+ "Interscope")).
Proof. split; reflexivity. Qed.

(** * The further properties on the demo provider *)

Lemma init_then_requests_witness :
  exists self,
    @init demo_builtins
       (demo_requests (JObj {[ "access_token" := JStr "BQDf3" ]}) (JArr []) JNull)
       "id" "secret" = Ok self /\
    forall track_name limit,
      @search_response
         (demo_requests (JObj {[ "access_token" := JStr "BQDf3" ]}) (JArr []) JNull)
         self track_name limit = Ok (JArr []).
Proof.
  exists (mkSpotify "id" "secret" "https://api.spotify.com/v1"
            (Some {[ "Authorization" := "Bearer BQDf3" ]})).
  assert (Hinit : @init demo_builtins
            (demo_requests (JObj {[ "access_token" := JStr "BQDf3" ]}) (JArr []) JNull)
            "id" "secret"
          = Ok (mkSpotify "id" "secret" "https://api.spotify.com/v1"
                  (Some {[ "Authorization" := "Bearer BQDf3" ]}))) by reflexivity.
  split; [exact Hinit|].
  destruct (@init_then_requests demo_builtins
              (demo_requests (JObj {[ "access_token" := JStr "BQDf3" ]}) (JArr []) JNull)
              "id" "secret" _ Hinit) as (token & _ & Hsearch & _).
  intros track_name limit. rewrite Hsearch. reflexivity.
Defined.

Lemma search_track_at_most_ten_witness :
  exists rows,
    demo_search (demo_search_body demo_items) (JInt 50) = Ok rows /\
    (length rows <= 10)%nat.
Proof.
  eexists. split; [reflexivity|].
  apply (@search_track_at_most_ten
           (demo_requests JNull (demo_search_body demo_items) JNull)
           demo_client "feeling" (JInt 50)).
  reflexivity.
Defined.

Lemma search_track_returns_iff_witness :
  ~ is_ok (demo_search (demo_search_body [demo_item "a"; JNull; demo_item "c"]) (JInt 5)).
Proof.
  intros Hok.
  apply (@search_track_returns_iff
           (demo_requests JNull
              (demo_search_body [demo_item "a"; JNull; demo_item "c"]) JNull)
           demo_client "feeling" (JInt 5)
           {[ "tracks" := JObj {[ "items" := JArr [demo_item "a"; JNull; demo_item "c"] ]} ]}
           {[ "items" := JArr [demo_item "a"; JNull; demo_item "c"] ]}
           [demo_item "a"; JNull; demo_item "c"] eq_refl eq_refl eq_refl) in Hok.
  apply Forall_cons_1 in Hok as [_ Hok]. apply Forall_cons_1 in Hok as [Hnull _].
  destruct Hnull as [[name Hname] _]. discriminate Hname.
Defined.

Lemma search_track_malformed_body_witness :
  demo_search (JObj {[ "tracks" := JNull ]}) (JInt 5) = Raise AttributeError.
Proof.
  refine (proj1 (proj2 (@search_track_malformed_body
                          (demo_requests JNull (JObj {[ "tracks" := JNull ]}) JNull)
                          demo_client "feeling" (JInt 5)
                          (JObj {[ "tracks" := JNull ]}) eq_refl))
            {[ "tracks" := JNull ]} JNull eq_refl eq_refl _).
  intros found. discriminate.
Defined.

Lemma search_row_then_trackinfo_witness :
  @trackinfo demo_unicode demo_builtins
     (demo_requests JNull
        (demo_search_body [demo_track (JStr "2021-05-10") (JStr "day") (JInt 185000)])
        (demo_track (JStr "2021-05-10") (JStr "day") (JInt 185000)))
     demo_client
     [JInt 1; JStr "Cut To The Feeling"; JStr "Carly Rae Jepsen";
      JStr "Global Warming"; JStr "11dFghVXANMlKmJXsNCbNl"]
  = Ok (demo_info (JStr "2021-05-10") "03:05" "May 10, 2021").
Proof.
  destruct (@search_row_then_trackinfo demo_unicode demo_builtins
              (demo_requests JNull
                 (demo_search_body
                    [demo_track (JStr "2021-05-10") (JStr "day") (JInt 185000)])
                 (demo_track (JStr "2021-05-10") (JStr "day") (JInt 185000)))
              demo_client "feeling" (JInt 5)
              {[ "tracks" := JObj {[ "items" :=
                   JArr [demo_track (JStr "2021-05-10") (JStr "day") (JInt 185000)] ]} ]}
              {[ "items" :=
                   JArr [demo_track (JStr "2021-05-10") (JStr "day") (JInt 185000)] ]}
              [demo_track (JStr "2021-05-10") (JStr "day") (JInt 185000)]
              [[JInt 1; JStr "Cut To The Feeling"; JStr "Carly Rae Jepsen";
                JStr "Global Warming"; JStr "11dFghVXANMlKmJXsNCbNl"]]
              0%nat
              [JInt 1; JStr "Cut To The Feeling"; JStr "Carly Rae Jepsen";
               JStr "Global Warming"; JStr "11dFghVXANMlKmJXsNCbNl"]
              eq_refl eq_refl eq_refl eq_refl eq_refl)
    as (item & trackid & _ & _ & Hrow & Hsame).
  injection Hrow as <-. rewrite Hsame. reflexivity.
Defined.

Lemma search_track_reads_first_ten_witness :
  demo_search (demo_search_body demo_items) (JInt 50)
  = demo_search (demo_search_body (take 10 demo_items ++ [JNull])) (JInt 50).
Proof.
  apply (search_track_reads_first_ten
           (demo_requests JNull (demo_search_body demo_items) JNull)
           (demo_requests JNull (demo_search_body (take 10 demo_items ++ [JNull])) JNull)
           demo_client "feeling" (JInt 50)
           {[ "tracks" := JObj {[ "items" := JArr demo_items ]} ]}
           {[ "items" := JArr demo_items ]}
           {[ "tracks" := JObj {[ "items" := JArr (take 10 demo_items ++ [JNull]) ]} ]}
           {[ "items" := JArr (take 10 demo_items ++ [JNull]) ]}
           demo_items (take 10 demo_items ++ [JNull]));
    reflexivity.
Defined.

Lemma trackinfo_record_keys_witness :
  dom (demo_info (JStr "2021-05-10") "03:05" "May 10, 2021")
  = {[ "album_id"; "name"; "artist"; "year"; "duration"; "image";
       "label"; "track_id"; "cover" ]}.
Proof.
  apply (@trackinfo_record_keys demo_unicode demo_builtins
           (demo_requests JNull JNull
              (demo_track (JStr "2021-05-10") (JStr "day") (JInt 185000)))
           demo_client (demo_row 1 "a" "b" "c")).
  reflexivity.
Defined.

Lemma trackinfo_copies_fields_witness :
  demo_info (JStr "2021-05-10") "03:05" "May 10, 2021" !! "artist"
  = Some (JStr "Carly Rae Jepsen").
Proof.
  destruct (@trackinfo_copies_fields demo_unicode demo_builtins
              (demo_requests JNull JNull
                 (demo_track (JStr "2021-05-10") (JStr "day") (JInt 185000)))
              demo_client (demo_row 1 "a" "b" "c")
              (JStr "11dFghVXANMlKmJXsNCbNl")
              (demo_track (JStr "2021-05-10") (JStr "day") (JInt 185000))
              (demo_info (JStr "2021-05-10") "03:05" "May 10, 2021")
              eq_refl eq_refl eq_refl)
    as (album_id & name & artist & image & track_id
        & _ & _ & _ & _ & Hartist & Hinfo & _).
  injection Hartist as <-. exact Hinfo.
Defined.

Lemma trackinfo_label_shape_witness :
  exists parsed,
    @strptime demo_unicode (JStr "2021") "%Y" = Ok parsed /\
    demo_info (JStr "2021") "03:05" "January 01, 2021" !! "label"
      = Some (JStr (strftime parsed "%B %d, %Y" +:+ newline +:+ "Interscope")) /\
    strftime parsed "%B %d, %Y" = "January 01, 2021" /\
    is_Month_DD_YYYY (strftime parsed "%B %d, %Y") = true.
Proof.
  destruct (@trackinfo_label_shape demo_unicode demo_builtins
              (demo_requests JNull JNull
                 (demo_track (JStr "2021") (JStr "year") (JInt 185000)))
              demo_client (demo_row 1 "a" "b" "c")
              (JStr "11dFghVXANMlKmJXsNCbNl")
              (demo_track (JStr "2021") (JStr "year") (JInt 185000))
              (JStr "4aawyAB9vmqN3uQ7FjRGTy") demo_album_data
              (demo_info (JStr "2021") "03:05" "January 01, 2021"))
    as (date & precision & date_format & parsed & album_label & Hdate & Hprec
        & Hfmt & Hparse & Hlabel & Hinfo & Hvalid & Htext & Hshape).
  - reflexivity.
  - reflexivity.
  - reflexivity.
  - reflexivity.
  - reflexivity.
  - injection Hdate as <-. injection Hprec as <-. injection Hfmt as <-.
    injection Hlabel as <-.
    assert (Hdate : parsed = mkdate 2021 1 1)
      by (vm_compute in Hparse; injection Hparse as <-; reflexivity).
    subst parsed.
    exists (mkdate 2021 1 1). split; [reflexivity|]. split; [exact Hinfo|].
    split; [reflexivity|]. apply Hshape. simpl. lia.
Defined.

Lemma trackinfo_propagates_failures_witness :
  demo_trackinfo (JStr "2021") (JStr "year") (JInt 185000) [JInt 1; JStr "a"]
  = Raise IndexError.
Proof.
  apply (@trackinfo_propagates_failures demo_unicode demo_builtins
           (demo_requests JNull JNull
              (demo_track (JStr "2021") (JStr "year") (JInt 185000)))
           demo_client [JInt 1; JStr "a"]).
  reflexivity.
Defined.

Lemma trackinfo_no_image_witness :
  @trackinfo demo_unicode demo_builtins (demo_requests JNull JNull demo_track_no_image)
     demo_client (demo_row 1 "a" "b" "c")
  = Raise IndexError.
Proof.
  apply (@trackinfo_no_image demo_unicode demo_builtins
           (demo_requests JNull JNull demo_track_no_image)
           demo_client (demo_row 1 "a" "b" "c")
           (JStr "11dFghVXANMlKmJXsNCbNl") demo_track_no_image
           (JStr "4aawyAB9vmqN3uQ7FjRGTy") demo_album_data (JStr "Interscope")
           (JStr "2021-05-10") (JStr "day") (JStr "Cut To The Feeling")
           (JStr "Carly Rae Jepsen") "May 10, 2021" "03:05");
    reflexivity.
Defined.

Lemma trackinfo_duration_not_int_witness :
  format_duration (demo_track (JStr "2021") (JStr "year") (JStr "185000"))
    = Raise TypeError /\
  format_duration (demo_track (JStr "2021") (JStr "year") (JFloat 185000 0))
    = Raise ValueError.
Proof.
  split.
  - refine (proj1 (@trackinfo_duration_not_int demo_unicode demo_builtins
                     (demo_requests JNull JNull
                        (demo_track (JStr "2021") (JStr "year") (JStr "185000")))
                     demo_client (demo_row 1 "a" "b" "c")
                     (JStr "11dFghVXANMlKmJXsNCbNl")
                     (demo_track (JStr "2021") (JStr "year") (JStr "185000"))
                     (JStr "185000") eq_refl eq_refl eq_refl _ _));
      intros; discriminate.
  - refine (proj1 (@trackinfo_duration_not_int demo_unicode demo_builtins
                     (demo_requests JNull JNull
                        (demo_track (JStr "2021") (JStr "year") (JFloat 185000 0)))
                     demo_client (demo_row 1 "a" "b" "c")
                     (JStr "11dFghVXANMlKmJXsNCbNl")
                     (demo_track (JStr "2021") (JStr "year") (JFloat 185000 0))
                     (JFloat 185000 0) eq_refl eq_refl eq_refl _ _));
      intros; discriminate.
Defined.

Lemma trackinfo_duration_reads_back_witness :
  exists mm ss,
    demo_info (JStr "2021-05-10") "03:05" "May 10, 2021" !! "duration"
      = Some (JStr (mm +:+ ":" +:+ ss)) /\
    has_shape [SDigit; SDigit] mm = true /\
    has_shape [SDigit; SDigit] ss = true /\
    0 <= @py_int demo_unicode ss < 60 /\
    60 * @py_int demo_unicode mm + @py_int demo_unicode ss = 185000 / 1000.
Proof.
  apply (@trackinfo_duration_reads_back demo_unicode demo_builtins
           (demo_requests JNull JNull
              (demo_track (JStr "2021-05-10") (JStr "day") (JInt 185000)))
           demo_client (demo_row 1 "a" "b" "c")
           (JStr "11dFghVXANMlKmJXsNCbNl")
           (demo_track (JStr "2021-05-10") (JStr "day") (JInt 185000)) 185000);
    try reflexivity; lia.
Defined.

Lemma trackinfo_reads_album_label_only_witness :
  @trackinfo demo_unicode demo_builtins
     (demo_requests_album (demo_track (JStr "2021") (JStr "year") (JInt 59000))
        demo_album_data)
     demo_client (demo_row 1 "a" "b" "c")
  = @trackinfo demo_unicode demo_builtins
      (demo_requests_album (demo_track (JStr "2021") (JStr "year") (JInt 59000))
         (JObj {[ "label" := JStr "Interscope"; "popularity" := JInt 71 ]}))
      demo_client (demo_row 1 "a" "b" "c").
Proof.
  apply (trackinfo_reads_album_label_only demo_unicode demo_builtins
           (demo_requests_album (demo_track (JStr "2021") (JStr "year") (JInt 59000))
              demo_album_data)
           (demo_requests_album (demo_track (JStr "2021") (JStr "year") (JInt 59000))
              (JObj {[ "label" := JStr "Interscope"; "popularity" := JInt 71 ]}))
           demo_client (demo_row 1 "a" "b" "c")
           (JStr "11dFghVXANMlKmJXsNCbNl")
           (demo_track (JStr "2021") (JStr "year") (JInt 59000))
           (JStr "4aawyAB9vmqN3uQ7FjRGTy")
           demo_album_data
           (JObj {[ "label" := JStr "Interscope"; "popularity" := JInt 71 ]}));
    reflexivity.
Defined.

Lemma format_release_date_no_such_day_witness :
  @format_release_date demo_unicode (JStr "2021-02-30") (JStr "day") = Raise ValueError
  /\ @format_release_date demo_unicode (JStr "0000-01-01") (JStr "day") = Raise ValueError.
Proof.
  split.
  - apply (@format_release_date_no_such_day demo_unicode 2021 2 30); try lia. reflexivity.
  - apply (@format_release_date_no_such_day demo_unicode 0 1 1); try lia. reflexivity.
Defined.

Lemma format_release_date_day_witness :
  @format_release_date demo_unicode (JStr "2024-02-29") (JStr "day") = Ok "February 29, 2024".
Proof. apply (@format_release_date_day demo_unicode 2024 2 29). reflexivity. Defined.

Lemma format_release_date_month_witness :
  @format_release_date demo_unicode (JStr "1999-12") (JStr "month") = Ok "December 01, 1999".
Proof. apply (@format_release_date_month demo_unicode 1999 12); lia. Defined.

Lemma format_release_date_year_witness :
  @format_release_date demo_unicode (JStr "0987") (JStr "year") = Ok "January 01, 987".
Proof. apply (@format_release_date_year demo_unicode 987). lia. Defined.

Lemma authorization_header_not_object_witness :
  demo_authorize (JArr [JStr "BQDf3"])
  = (Raise TypeError, mkSpotify "id" "secret" "https://api.spotify.com/v1" None).
Proof.
  apply (@authorization_header_not_object demo_builtins
           (demo_requests (JArr [JStr "BQDf3"]) JNull JNull)
           (mkSpotify "id" "secret" "https://api.spotify.com/v1" None)
           (JArr [JStr "BQDf3"])); [reflexivity|].
  intros body. discriminate.
Defined.
